(** * pyLEEMImage: a shallow embedding of the LEEM file decoder

    This development embeds [src/LEEMImage.py] (class [LEEMImage]):
    the header reader, the tagged metadata loop, the pixel reader of
    [_load_file], and the helpers [normalizeOnCCD], [filterInelasticBkg]
    and [get_levels].

    Conventions of the embedding:
    - a Python [bytes] value is a [list byte];
    - a Python [str] obtained by [.decode('cp1252')] is a Rocq [string]
      whose characters are the cp1252 bytes (cp1252 decoding is injective,
      and every [str] literal of the source lies in the range where the
      cp1252 byte and the code point agree);
    - a Python [float] is an IEEE binary64 value, [double] below, computed
      with round-to-nearest-even from the exact rational result;
    - a raised exception is [Raise e] in the result type [res]. *)

From Stdlib Require Import ZArith List Bool String Ascii Lia.
From Stdlib Require Import Strings.Byte.
From stdpp Require Import gmap strings.

Open Scope Z_scope.

(* ================================================================= *)
(** ** Exceptions and the result monad *)

Inductive pyexc :=
| StructError          (* struct.error: wrong buffer length *)
| IndexError
| ValueError
| UnicodeDecodeError
| StopIteration
| UnboundLocalError
| OSError
| OverflowError
| ZeroDivisionError
| TypeError
| KeyError
| DimensionError.

Inductive res (A : Type) : Type :=
| Ok (a : A)
| Raise (e : pyexc).
Arguments Ok {A} a.
Arguments Raise {A} e.

Definition res_bind {A B} (m : res A) (k : A -> res B) : res B :=
  match m with
  | Ok a => k a
  | Raise e => Raise e
  end.

Notation "'let!' x ':=' m 'in' k" := (res_bind m (fun x => k))
  (at level 200, x name, m at level 100, right associativity).

(* ================================================================= *)
(** ** IEEE binary64 values *)

(** [DFin neg m e] is [(-1)^neg * m * 2^e]; [m >= 0]. *)
Inductive double :=
| DFin (neg : bool) (m e : Z)
| DInf (neg : bool)
| DNaN.

Definition dzero : double := DFin false 0 0.

(** [le_scaled q p k] decides [q * 2^k <= p] for any integer [k]. *)
Definition le_scaled (q p k : Z) : bool :=
  if 0 <=? k then q * 2 ^ k <=? p else q <=? p * 2 ^ (- k).

(** [exp_of p q] is [floor (log2 (p / q))] for [p, q > 0]. *)
Definition exp_of (p q : Z) : Z :=
  let k0 := Z.log2 p - Z.log2 q in
  if le_scaled q p k0 then k0 else k0 - 1.

Definition round_half_even (num den : Z) : Z :=
  let m0 := num / den in
  let r := num mod den in
  match Z.compare (2 * r) den with
  | Lt => m0
  | Gt => m0 + 1
  | Eq => if Z.even m0 then m0 else m0 + 1
  end.

(** The binary64 value nearest to [p / q] ([p, q > 0]), ties to even,
    with gradual underflow and overflow to infinity. *)
Definition round_pos (neg : bool) (p q : Z) : double :=
  let k := exp_of p q in
  let e := Z.max (k - 52) (-1074) in
  let m := if 0 <=? e then round_half_even p (q * 2 ^ e)
           else round_half_even (p * 2 ^ (- e)) q in
  let '(m', e') := if m =? 2 ^ 53 then (2 ^ 52, e + 1) else (m, e) in
  if 971 <? e' then DInf neg else DFin neg m' e'.

(** The rounded value of the rational [n / d], [d > 0]. *)
Definition round_q (n d : Z) : double :=
  if n =? 0 then dzero
  else if n <? 0 then round_pos true (- n) d else round_pos false n d.

(** Exact value of a finite double as a fraction [(num, den)], [den > 0]. *)
Definition dfrac (neg : bool) (m e : Z) : Z * Z :=
  let s := if neg then -1 else 1 in
  if 0 <=? e then (s * m * 2 ^ e, 1) else (s * m, 2 ^ (- e)).

Definition dis_zero (x : double) : bool :=
  match x with DFin _ m _ => m =? 0 | _ => false end.

Definition dsign (x : double) : bool :=
  match x with DFin s _ _ => s | DInf s => s | DNaN => false end.

Definition double_of_Z (n : Z) : double := round_q n 1.

(** IEEE division [x / y]. *)
Definition ddiv (x y : double) : double :=
  match x, y with
  | DNaN, _ | _, DNaN => DNaN
  | DInf _, DInf _ => DNaN
  | DInf s, DFin t _ _ => DInf (xorb s t)
  | DFin s _ _, DInf t => DFin (xorb s t) 0 0
  | DFin s m e, DFin t m' e' =>
      if m' =? 0 then (if m =? 0 then DNaN else DInf (xorb s t))
      else if m =? 0 then DFin (xorb s t) 0 0
      else
        let '(n1, d1) := dfrac false m e in
        let '(n2, d2) := dfrac false m' e' in
        round_pos (xorb s t) (n1 * d2) (d1 * n2)
  end.

(** IEEE addition [x + y]. *)
Definition dadd (x y : double) : double :=
  match x, y with
  | DNaN, _ | _, DNaN => DNaN
  | DInf s, DInf t => if Bool.eqb s t then DInf s else DNaN
  | DInf s, DFin _ _ _ | DFin _ _ _, DInf s => DInf s
  | DFin s m e, DFin t m' e' =>
      let '(n1, d1) := dfrac s m e in
      let '(n2, d2) := dfrac t m' e' in
      let n := n1 * d2 + n2 * d1 in
      if n =? 0 then DFin (andb s t) 0 0 else round_q n (d1 * d2)
  end.

Definition dneg (x : double) : double :=
  match x with
  | DFin s m e => DFin (negb s) m e
  | DInf s => DInf (negb s)
  | DNaN => DNaN
  end.

Definition dsub (x y : double) : double := dadd x (dneg y).

(** [dlt x y] is the IEEE comparison [x < y] (false on NaN). *)
Definition dlt (x y : double) : bool :=
  match x, y with
  | DNaN, _ | _, DNaN => false
  | DInf s, DInf t => s && negb t
  | DInf s, DFin _ _ _ => s
  | DFin _ _ _, DInf t => negb t
  | DFin s m e, DFin t m' e' =>
      let '(n1, d1) := dfrac s m e in
      let '(n2, d2) := dfrac t m' e' in
      n1 * d2 <? n2 * d1
  end.

(** IEEE equality [x == y] on doubles. *)
Definition deqb (x y : double) : bool :=
  match x, y with
  | DNaN, _ | _, DNaN => false
  | DInf s, DInf t => Bool.eqb s t
  | DFin s m e, DFin t m' e' =>
      let '(n1, d1) := dfrac s m e in
      let '(n2, d2) := dfrac t m' e' in
      n1 * d2 =? n2 * d1
  | _, _ => false
  end.

Definition disnan (x : double) : bool :=
  match x with DNaN => true | _ => false end.

(** numpy's [maximum]: NaN propagates. *)
Definition np_maximum (x y : double) : double :=
  if disnan x || disnan y then DNaN else if dlt x y then y else x.

(** IEEE multiplication [x * y]. *)
Definition dmul (x y : double) : double :=
  match x, y with
  | DNaN, _ | _, DNaN => DNaN
  | DInf s, DInf t => DInf (xorb s t)
  | DInf s, DFin t m _ | DFin t m _, DInf s =>
      if m =? 0 then DNaN else DInf (xorb s t)
  | DFin s m e, DFin t m' e' =>
      if (m =? 0) || (m' =? 0) then DFin (xorb s t) 0 0
      else
        let '(n1, d1) := dfrac false m e in
        let '(n2, d2) := dfrac false m' e' in
        round_pos (xorb s t) (n1 * n2) (d1 * d2)
  end.

(** C's [modf]: (fractional part, integral part), both with the sign of [x]. *)
Definition dmodf (x : double) : double * double :=
  match x with
  | DFin s m e =>
      if 0 <=? e then (DFin s 0 0, x)
      else (DFin s (m mod 2 ^ (- e)) e, DFin s (m / 2 ^ (- e)) 0)
  | DInf s => (DFin s 0 0, DInf s)
  | DNaN => (DNaN, DNaN)
  end.

(** [PyLong_FromDouble] on an integral double. *)
Definition py_long_from_double (x : double) : res Z :=
  match x with
  | DFin s m e =>
      let v := if 0 <=? e then m * 2 ^ e else m / 2 ^ (- e) in
      Ok (if s then - v else v)
  | DInf _ => Raise OverflowError
  | DNaN => Raise ValueError
  end.

(** Python's [a / b] on two [int]s: correctly rounded true division. *)
Definition py_int_truediv (a b : Z) : res double :=
  if b =? 0 then Raise ZeroDivisionError
  else if a =? 0 then Ok (DFin (b <? 0) 0 0)
  else match round_pos (xorb (a <? 0) (b <? 0)) (Z.abs a) (Z.abs b) with
       | DInf _ => Raise OverflowError
       | d => Ok d
       end.

(* ================================================================= *)
(** ** Bytes, [struct.unpack] and [bytes.split] *)

Definition bz (b : byte) : Z := Z.of_N (Byte.to_N b).

(** [struct.unpack('<h', b)[0]]: signed little-endian 16-bit. *)
Definition unpack_h (b : list byte) : res Z :=
  match b with
  | [lo; hi] =>
      let v := bz lo + 256 * bz hi in
      Ok (if 32768 <=? v then v - 65536 else v)
  | _ => Raise StructError
  end.

Fixpoint le_unsigned (b : list byte) : Z :=
  match b with
  | [] => 0
  | x :: rest => bz x + 256 * le_unsigned rest
  end.

(** [struct.unpack('<Q', b)[0]]: unsigned little-endian 64-bit. *)
Definition unpack_Q (b : list byte) : res Z :=
  if Nat.eqb (length b) 8 then Ok (le_unsigned b) else Raise StructError.

(** The binary64 value of a binary32 bit pattern (exact widening). *)
Definition f32_to_double (bits : Z) : double :=
  let s := Z.testbit bits 31 in
  let ex := Z.land (Z.shiftr bits 23) 255 in
  let fr := Z.land bits (2 ^ 23 - 1) in
  if ex =? 255 then (if fr =? 0 then DInf s else DNaN)
  else if ex =? 0 then DFin s fr (-149)
  else DFin s (fr + 2 ^ 23) (ex - 150).

(** [struct.unpack('<f', b)[0]]. *)
Definition unpack_f (b : list byte) : res double :=
  if Nat.eqb (length b) 4 then Ok (f32_to_double (le_unsigned b))
  else Raise StructError.

(** [b.split(b'\x00')[0]]. *)
Fixpoint split0_first (b : list byte) : list byte :=
  match b with
  | [] => []
  | x :: rest => if bz x =? 0 then [] else x :: split0_first rest
  end.

(** [b.split(b'\x00')[1]]: IndexError when there is no null byte. *)
Fixpoint split0_second (b : list byte) : res (list byte) :=
  match b with
  | [] => Raise IndexError
  | x :: rest => if bz x =? 0 then Ok (split0_first rest) else split0_second rest
  end.

(** Slice [b[i:j]] for [0 <= i], [0 <= j]. *)
Definition slice (b : list byte) (i j : Z) : list byte :=
  firstn (Z.to_nat j - Z.to_nat i) (skipn (Z.to_nat i) b).

(** Slice [b[i:]]. *)
Definition slice_from (b : list byte) (i : Z) : list byte := skipn (Z.to_nat i) b.

(** Index [b[i]], [0 <= i], giving an [int]. *)
Definition index_byte (b : list byte) (i : Z) : res Z :=
  match nth_error b (Z.to_nat i) with
  | Some x => Ok (bz x)
  | None => Raise IndexError
  end.

(** [b.decode('cp1252')]: the five undefined bytes raise. *)
Definition cp1252_undefined (n : Z) : bool :=
  existsb (Z.eqb n) [129; 141; 143; 144; 157].

Definition decode_cp1252 (b : list byte) : res string :=
  if existsb (fun x => cp1252_undefined (bz x)) b then Raise UnicodeDecodeError
  else Ok (string_of_list_ascii (map ascii_of_byte b)).

(* ================================================================= *)
(** ** Python's [float(str)] *)

Definition anat (c : ascii) : nat := nat_of_ascii c.

Definition is_digit (c : ascii) : bool := (48 <=? anat c)%nat && (anat c <=? 57)%nat.

Definition digit_val (c : ascii) : Z := Z.of_nat (anat c) - 48.

(** [str.isspace] on the characters of a cp1252-decoded string. *)
Definition is_py_space (c : ascii) : bool :=
  let n := anat c in
  ((9 <=? n)%nat && (n <=? 13)%nat) || ((28 <=? n)%nat && (n <=? 32)%nat)
  || (n =? 160)%nat.

Fixpoint drop_space (l : list ascii) : list ascii :=
  match l with
  | c :: rest => if is_py_space c then drop_space rest else l
  | [] => []
  end.

Definition py_strip (l : list ascii) : list ascii := rev (drop_space (rev (drop_space l))).

Definition lower (c : ascii) : ascii :=
  if (65 <=? anat c)%nat && (anat c <=? 90)%nat then ascii_of_nat (anat c + 32) else c.

(** The rest of a [digitpart] after its first digit: digits, each
    optionally preceded by one underscore. *)
Fixpoint digits_more (l : list ascii) (v : Z) (n : Z) : Z * Z * list ascii :=
  match l with
  | c :: rest =>
      if is_digit c then digits_more rest (10 * v + digit_val c) (n + 1)
      else if (anat c =? 95)%nat then
        match rest with
        | d :: rest' =>
            if is_digit d then digits_more rest' (10 * v + digit_val d) (n + 1)
            else (v, n, l)
        | [] => (v, n, l)
        end
      else (v, n, l)
  | [] => (v, n, [])
  end.

(** [digitpart]: value, number of digits, rest. *)
Definition digitpart (l : list ascii) : option (Z * Z * list ascii) :=
  match l with
  | c :: rest => if is_digit c then Some (digits_more rest (digit_val c) 1) else None
  | [] => None
  end.

Definition opt_digitpart (l : list ascii) : Z * Z * list ascii :=
  match digitpart l with Some r => r | None => (0, 0, l) end.

(** The unsigned part of a float literal: mantissa [M] and exponent [E]
    with value [M * 10^E]. *)
Definition parse_decimal (l : list ascii) : option (Z * Z) :=
  let '(iv, ni, r1) := opt_digitpart l in
  let '(fv, nf, r2) :=
    match r1 with
    | c :: rest => if (anat c =? 46)%nat then opt_digitpart rest else (0, -1, r1)
    | [] => (0, -1, r1)
    end in
  (* nf = -1: no point; a point needs digits on at least one side *)
  if (ni =? 0) && (nf <=? 0) then None
  else
    let nf' := Z.max nf 0 in
    let mant := iv * 10 ^ nf' + fv in
    match r2 with
    | [] => Some (mant, - nf')
    | c :: rest =>
        if (anat (lower c) =? 101)%nat then
          let '(esign, r3) :=
            match rest with
            | s :: rest' =>
                if (anat s =? 43)%nat then (1, rest')
                else if (anat s =? 45)%nat then (-1, rest') else (1, rest)
            | [] => (1, rest)
            end in
          match digitpart r3 with
          | Some (ev, _, []) => Some (mant, esign * ev - nf')
          | _ => None
          end
        else None
    end.

Definition lower_list (l : list ascii) : list ascii := map lower l.

(** [float(s)] for a [str] [s]; [None] is the [ValueError]. *)
Definition py_float (s : string) : option double :=
  let l := py_strip (list_ascii_of_string s) in
  let '(neg, body) :=
    match l with
    | c :: rest =>
        if (anat c =? 45)%nat then (true, rest)
        else if (anat c =? 43)%nat then (false, rest) else (false, l)
    | [] => (false, l)
    end in
  let lb := string_of_list_ascii (lower_list body) in
  if String.eqb lb "inf" || String.eqb lb "infinity" then Some (DInf neg)
  else if String.eqb lb "nan" then Some DNaN
  else match parse_decimal body with
       | None => None
       | Some (mant, ex) =>
           if mant =? 0 then Some (DFin neg 0 0)
           else if 0 <=? ex then Some (round_pos neg (mant * 10 ^ ex) 1)
           else Some (round_pos neg mant (10 ^ (- ex)))
       end.

(* ================================================================= *)
(** ** [datetime] and [timedelta] *)

(** A [datetime] is determined by its microseconds since
    0001-01-01T00:00:00 (its proleptic Gregorian ordinal, time and
    microsecond); a [timedelta] by its total microseconds. *)
Record datetime := mk_dt { dt_us : Z }.
Record timedelta := mk_td { td_us : Z }.

Definition is_leap (y : Z) : bool :=
  (y mod 4 =? 0) && (negb (y mod 100 =? 0) || (y mod 400 =? 0)).

Definition days_before_year (y : Z) : Z :=
  let y' := y - 1 in y' * 365 + y' / 4 - y' / 100 + y' / 400.

Definition days_before_month (y m : Z) : Z :=
  nth (Z.to_nat (m - 1)) [0; 31; 59; 90; 120; 151; 181; 212; 243; 273; 304; 334] 0
  + (if (2 <? m) && is_leap y then 1 else 0).

Definition ymd2ord (y m d : Z) : Z := days_before_year y + days_before_month y m + d.

Definition us_per_day : Z := 86400 * 10 ^ 6.

(** [datetime(y, mo, d, h, mi, s, us)] for valid field values. *)
Definition mk_datetime (y mo d h mi s us : Z) : datetime :=
  mk_dt ((ymd2ord y mo d - 1) * us_per_day + ((h * 60 + mi) * 60 + s) * 10 ^ 6 + us).

(** [datetime.max] is 9999-12-31T23:59:59.999999. *)
Definition dt_us_limit : Z := (ymd2ord 9999 12 31) * us_per_day.

(** [microseconds_to_delta]: [|days| <= 999999999]. *)
Definition mk_timedelta (us : Z) : res timedelta :=
  let days := us / us_per_day in
  if (Z.abs days <=? 999999999) then Ok (mk_td us) else Raise OverflowError.

(** [datetime + timedelta]: OverflowError outside years 1..9999. *)
Definition dt_add (d : datetime) (t : timedelta) : res datetime :=
  let u := dt_us d + td_us t in
  if (0 <=? u) && (u <? dt_us_limit) then Ok (mk_dt u) else Raise OverflowError.

(** Rounding of the leftover microseconds in [timedelta.__new__]:
    C [round] (half away from zero), and at an exact half the parity of
    the whole microseconds [x] decides (round half to even). *)
Definition round_leftover (r : double) (x : Z) : Z :=
  match r with
  | DFin s m e =>
      let '(n, d) := dfrac s m e in
      match Z.compare (2 * Z.abs n) d with
      | Lt => 0
      | Gt => if s then -1 else 1
      | Eq => if Z.odd x then (if s then -1 else 1) else 0
      end
  | _ => 0
  end.

(** [timedelta(seconds=x)] for a [float] [x] (CPython's [delta_new] with
    [accum("seconds", 0, x, 1000000, &leftover_us)]). *)
Definition timedelta_seconds (x : double) : res timedelta :=
  let '(frac, ip) := dmodf x in
  let! xi := py_long_from_double ip in
  let sofar := xi * 10 ^ 6 in
  if deqb frac dzero then mk_timedelta sofar
  else
    let dnum := dmul (double_of_Z (10 ^ 6)) frac in
    let '(frac2, ip2) := dmodf dnum in
    let! xi2 := py_long_from_double ip2 in
    let sofar' := sofar + xi2 in
    let leftover := dadd dzero frac2 in
    if deqb leftover dzero then mk_timedelta sofar'
    else mk_timedelta (sofar' + round_leftover leftover sofar').

(** [convert_ad_timestamp] (LEEMImage.py, lines 38-42). *)
Definition convert_ad_timestamp (timestamp : Z) : res datetime :=
  let epoch_start := mk_datetime 1601 1 1 0 0 0 0 in
  let! seconds_since_epoch := py_int_truediv timestamp (10 ^ 7) in
  let! td := timedelta_seconds seconds_since_epoch in
  dt_add epoch_start td.

(* ================================================================= *)
(** ** Python values and the metadata dictionary *)

Set Warnings "-register-all".

Inductive pyval :=
| VBytes (b : list byte)
| VInt (z : Z)
| VFloat (d : double)
| VStr (s : string)
| VBool (b : bool)
| VNone
| VList (l : list pyval)
| VDatetime (d : datetime).

(** [self.metadata]: a [dict] from [str] keys. *)
Abbreviation metadict := (gmap string pyval).

Definition chr (n : nat) : string := String (ascii_of_nat n) EmptyString.

(** The [str] literals of the source outside ASCII. *)
Definition s_degC : string := chr 176 ++ "C".
Definition s_muA : string := chr 181 ++ "A".
Definition s_mum : string := chr 181 ++ "m".

(** [str.startswith]-like test [s[0:4] == p] for a 4-character [p]. *)
Definition prefix4_eqb (s p : string) : bool := String.eqb (substring 0 4 s) p.

(** [s.split(sep)[0]]: the part of [s] before the first [sep]. *)
Fixpoint split_first (sep s : string) : string :=
  match s with
  | EmptyString => EmptyString
  | String c rest =>
      if String.prefix sep s then EmptyString else String c (split_first sep rest)
  end.

(* ================================================================= *)
(** ** The record readers of [_load_file] *)

(** [units_dict] of [read_field] (line 47). *)
Definition units_dict : list string :=
  [""; "V"; "mA"; "A"; s_degC; " K"; "mV"; "pA"; "nA"; s_muA].

(** [int(chr(c))] for a byte [c]: only the ASCII digits parse. *)
Definition int_of_chr (c : Z) : res Z :=
  if (48 <=? c) && (c <=? 57) then Ok (c - 48) else Raise ValueError.

(** [units_dict[i]] for [0 <= i]. *)
Definition units_lookup (i : Z) : res string :=
  match nth_error units_dict (Z.to_nat i) with
  | Some u => Ok u
  | None => Raise IndexError
  end.

Definition last_byte (b : list byte) : res Z :=
  match rev b with
  | x :: _ => Ok (bz x)
  | [] => Raise IndexError
  end.

(** [read_field] (lines 44-57): name, unit, value and offset.  The
    float slice uses the enclosing [position], which equals the
    [current_position] argument at every call. *)
Definition read_field (header : list byte) (position : Z)
  : res (string * string * double * Z) :=
  let temp := split0_first (slice_from header (position + 1)) in
  let! name := decode_cp1252 (removelast temp) in
  let! c := last_byte temp in
  let! unit_tag := int_of_chr c in
  let lt := Z.of_nat (length temp) in
  let! val := unpack_f (slice header (position + lt + 2) (position + lt + 6)) in
  let offset := lt + 5 in
  let! unit := units_lookup unit_tag in
  Ok (name, unit, val, offset).

(** [read_varian] (lines 59-70). *)
Definition read_varian (header : list byte) (position : Z)
  : res (string * string * double * Z) :=
  let rest := slice_from header (position + 1) in
  let temp_1 := split0_first rest in
  let! temp_2 := split0_second rest in
  let! str_1 := decode_cp1252 temp_1 in
  let! str_2 := decode_cp1252 temp_2 in
  let l12 := Z.of_nat (length temp_1) + Z.of_nat (length temp_2) in
  let! val := unpack_f (slice header (position + l12 + 3) (position + l12 + 7)) in
  Ok (str_1, str_2, val, l12 + 6).

(** [known_tags] (lines 132-142). *)
Definition known_tags : list Z :=
  [11;38;39;44;158;159;160;161;162;163;164;165;149;175;
   184;169;128;129;130;131;132;133;134;135;136;137;138;
   140;141;142;143;144;145;146;147;148;150;151;152;153;
   154;155;168;170;171;173;174] ++
  [210;203;185;208;215;206;172;211;221;220;197;177;
   178;180;181;202;190;191;194;195;196;214;198;199;
   182;179;200;201;176;187;94;192;213;209;183;186;
   212;156;157;205;204;188;189;207] ++
  [55].

Definition varian_tags : list Z := [106; 107; 108; 109; 235; 236; 237].

Definition memZ (x : Z) (l : list Z) : bool := existsb (Z.eqb x) l.

(** The FOV record, tag 110 (lines 161-190). *)
Definition fov_record (header : list byte) (position : Z) (md : metadict)
  : res (metadict * Z) :=
  let temp := split0_first (slice_from header (position + 1)) in
  let! fov_str := decode_cp1252 temp in
  let lt := Z.of_nat (length temp) in
  let! cal := unpack_f (slice header (position + lt + 2) (position + lt + 6)) in
  let md := <["FOV cal. factor" := VFloat cal]> md in
  let md :=
    if prefix4_eqb fov_str "LEED" then
      <["FOV" := VNone]> (<["LEED" := VBool true]> md)
    else if prefix4_eqb fov_str "none" then
      <["FOV" := VNone]> md
    else
      let md := <["LEED" := VBool false]> md in
      match py_float (split_first s_mum fov_str) with
      | Some v => <["FOV" := VList [VFloat v; VStr s_mum]]> md
      | None => md    (* except ValueError: logging.error *)
      end in
  Ok (md, lt + 5).

(** One pass of the body of the [for b in b_iter] loop after the
    [b == 255] test (lines 155-279): the new dictionary and the value of
    the variable [offset] after the [if] chain.  [offset] is [None] while
    unbound; the last branch does not assign it. *)
Definition handle_tag (b : Z) (header : list byte) (position : Z)
  (offset : option Z) (md : metadict) : res (metadict * option Z) :=
  if memZ b known_tags then
    let! r := read_field header position in
    let '(fieldname, unit, value, off) := r in
    Ok (<[fieldname := VList [VFloat value; VStr unit]]> md, Some off)
  else if b =? 110 then
    let! r := fov_record header position md in
    Ok (fst r, Some (snd r))
  else if b =? 104 then
    let! ce := unpack_f (slice header (position + 1) (position + 5)) in
    let md := <["Camera Exposure" := VList [VFloat ce; VStr "s"]]> md in
    let! avg := index_byte header (position + 5) in
    Ok (<["Average Images" := VInt avg]> md, Some 6)
  else if memZ b varian_tags then
    let! r := read_varian header position in
    let '(gauge, unit, pressure, off) := r in
    Ok (<[gauge := VList [VFloat pressure; VStr unit]]> md, Some off)
  else if b =? 100 then
    let! x := unpack_f (slice header (position + 1) (position + 5)) in
    let md := <["Mitutoyo X" := VList [VFloat x; VStr "mm"]]> md in
    let! y := unpack_f (slice header (position + 5) (position + 9)) in
    Ok (<["Mitutoyo Y" := VList [VFloat y; VStr "mm"]]> md, Some 8)
  else if b =? 233 then
    let temp := split0_first (slice_from header (position + 1)) in
    let! title := decode_cp1252 temp in
    Ok (<["Image Title" := VStr title]> md, Some (Z.of_nat (length temp) + 1))
  else if b =? 240 then
    let! v := index_byte header (position + 1) in
    Ok (<["MirrorState1" := VInt v]> md, Some 2)
  else if b =? 242 then
    let! v := index_byte header (position + 1) in
    Ok (<["MirrorState2" := VInt v]> md, Some 2)
  else if b =? 243 then
    let! v := unpack_f (slice header (position + 1) (position + 5)) in
    Ok (<["MCPscreen" := VList [VFloat v; VStr "V"]]> md, Some 4)
  else if b =? 244 then
    let! v := unpack_f (slice header (position + 1) (position + 5)) in
    Ok (<["MCPchannelplate" := VList [VFloat v; VStr "V"]]> md, Some 4)
  else
    (* logging.error('ERROR: Unknown field tag ...'); offset keeps its value *)
    Ok (md, offset).

(** How the [for] loop over [b_iter] ends without an exception. *)
Inductive loop_end :=
| LoopBreak (position : Z)        (* [break] at a tag byte 255 *)
| LoopExhausted (position : Z).   (* [b_iter] ran out *)

(** The metadata loop (lines 145-284).  The iterator [b_iter] and the
    counter [position] advance together (one byte for the [for], then
    [offset] bytes of [next(b_iter)], and [position += offset + 1]), so
    one index models both.  [fuel] bounds the iterations; [None] means
    the fuel ran out, which the theorems show never happens with
    [length header + 1] units. *)
Fixpoint meta_loop (fuel : nat) (header : list byte) (position : Z)
  (offset : option Z) (md : metadict) : option (res (loop_end * metadict)) :=
  match fuel with
  | O => None
  | S fuel' =>
      match nth_error header (Z.to_nat position) with
      | None => Some (Ok (LoopExhausted position, md))
      | Some bb =>
          let b := bz bb in
          if b =? 255 then Some (Ok (LoopBreak position, md))
          else
            match handle_tag b header position offset md with
            | Raise e => Some (Raise e)
            | Ok (md', off) =>
                match off with
                | None => Some (Raise UnboundLocalError)
                | Some k =>
                    (* [next(b_iter)] k times: StopIteration past the end *)
                    if Z.of_nat (length header) <? position + 1 + k
                    then Some (Raise StopIteration)
                    else meta_loop fuel' header (position + k + 1) (Some k) md'
                end
            end
      end
  end.

(** The loop as run by [_load_file]: from position 0, [offset] unbound. *)
Definition meta_decode (header : list byte) (md : metadict)
  : option (res (loop_end * metadict)) :=
  meta_loop (S (length header)) header 0 None md.

(* ================================================================= *)
(** ** The file object *)

(** An open binary file: its bytes and the current position (which may
    lie past the end after a [seek]). *)
Record fh := mk_fh { fbytes : list byte; fpos : Z }.

(** [f.read(n)]: at most [n] bytes, all remaining bytes when [n < 0]. *)
Definition f_read (f : fh) (n : Z) : list byte * fh :=
  let avail := skipn (Z.to_nat (fpos f)) (fbytes f) in
  let got := if n <? 0 then avail else firstn (Z.to_nat n) avail in
  (got, mk_fh (fbytes f) (fpos f + Z.of_nat (length got))).

(** [f.seek(off, whence)] for [whence] 1 (current) or 2 (end): a
    negative target raises [OSError] (EINVAL). *)
Definition f_seek (f : fh) (off whence : Z) : res fh :=
  let base := if whence =? 2 then Z.of_nat (length (fbytes f)) else fpos f in
  let p := base + off in
  if p <? 0 then Raise OSError else Ok (mk_fh (fbytes f) p).

(** [struct.unpack('<h', f.read(2))[0]]. *)
Definition read_h (f : fh) : res (Z * fh) :=
  let '(b, f) := f_read f 2 in
  let! v := unpack_h b in Ok (v, f).

(** Store a [<h] header field under [key]. *)
Definition read_h_into (key : string) (f : fh) (md : metadict) : res (fh * metadict) :=
  let! r := read_h f in
  Ok (snd r, <[key := VInt (fst r)]> md).

(* ================================================================= *)
(** ** The fixed header (lines 75-125) *)

Record header_state := mk_hs {
  hs_meta : metadict;         (* self.metadata after the fixed header *)
  hs_noimg : Z;               (* self.noimg *)
  hs_versleemdata : Z;        (* self.versleemdata *)
  hs_block : list byte;       (* img_header *)
  hs_file : fh                (* f after reading img_header *)
}.

(** Lines 75-84: identifier, [size], [version], [bitsperpix], the two
    skips, [width] and [height]. *)
Definition header_dims (bytes : list byte) : res (fh * metadict) :=
  let f := mk_fh bytes 0 in
  let md : metadict := ∅ in
  let '(idb, f) := f_read f 20 in
  let md := <["id" := VBytes (split0_first idb)]> md in
  let! r := read_h_into "size" f md in let '(f, md) := r in
  let! r := read_h_into "version" f md in let '(f, md) := r in
  let! r := read_h_into "bitsperpix" f md in let '(f, md) := r in
  let! f := f_seek f 6 1 in
  let! f := f_seek f 8 1 in
  let! r := read_h_into "width" f md in let '(f, md) := r in
  read_h_into "height" f md.

(** Lines 87-125: the rest of the fixed header and [img_header]. *)
Definition header_tail (f : fh) (md : metadict) : res header_state :=
  let! r := read_h f in let '(noimg, f) := r in
  let! r := read_h f in let '(attachedRecipeSize, f) := r in
  let! f := f_seek f 56 1 in
  let! r :=
    (if attachedRecipeSize =? 0 then Ok (f, md)
     else
       let '(recipe, f) := f_read f attachedRecipeSize in
       let md := <["recipe" := VBytes recipe]> md in
       let! f := f_seek f (128 - attachedRecipeSize) 1 in
       Ok (f, md)) in
  let '(f, md) := r in
  let! r := read_h_into "isize" f md in let '(f, md) := r in
  let! r := read_h_into "iversion" f md in let '(f, md) := r in
  let! r := read_h_into "colorscale_low" f md in let '(f, md) := r in
  let! r := read_h_into "colorscale_high" f md in let '(f, md) := r in
  let '(tsb, f) := f_read f 8 in
  let! ts := unpack_Q tsb in
  let! t := convert_ad_timestamp ts in
  let md := <["timestamp" := VDatetime t]> md in
  let! r := read_h_into "mask_xshift" f md in let '(f, md) := r in
  let! r := read_h_into "mask_yshift" f md in let '(f, md) := r in
  let '(um, f) := f_read f 1 in
  let md := <["usemask" := VBytes um]> md in
  let! f := f_seek f 1 1 in
  let! r := read_h_into "att_markupsize" f md in let '(f, md) := r in
  let! r := read_h_into "spin" f md in let '(f, md) := r in
  let! r := read_h f in let '(versleemdata, f) := r in
  let! r :=
    (if versleemdata =? 2 then Ok (f_read f 256)
     else
       let! f := f_seek f 388 1 in
       Ok (f_read f versleemdata)) in
  let '(img_header, f) := r in
  Ok (mk_hs md noimg versleemdata img_header f).

Definition header_stage (bytes : list byte) : res header_state :=
  let! r := header_dims bytes in
  header_tail (fst r) (snd r).

(* ================================================================= *)
(** ** The pixel payload (lines 286-292) *)

(** A numpy array of the two kinds the class holds: the [uint16] image
    read from the file and the [float64] arrays of the helpers. *)
Inductive ndarray :=
| ArrU16 (rows : list (list Z))
| ArrF64 (rows : list (list double)).

Fixpoint le16_items (b : list byte) : list Z :=
  match b with
  | lo :: hi :: rest => (bz lo + 256 * bz hi) :: le16_items rest
  | _ => []
  end.

(** [np.fromfile(f, dtype=np.uint16)] (little-endian host): the item
    count is [(file size - position) / 2], truncated toward zero; a
    negative count (position past the end) is numpy's [ValueError]
    "negative dimensions are not allowed". *)
Definition np_fromfile_u16 (f : fh) : res (list Z) :=
  let numbytes := Z.of_nat (length (fbytes f)) - fpos f in
  if numbytes <? 0 then
    (if Z.quot numbytes 2 =? 0 then Ok [] else Raise ValueError)
  else Ok (le16_items (skipn (Z.to_nat (fpos f)) (fbytes f))).

(** [h] rows of [w] items, row-major. *)
Fixpoint rows_of {A} (h : nat) (w : nat) (flat : list A) : list (list A) :=
  match h with
  | O => []
  | S h' => firstn w flat :: rows_of h' w (skipn w flat)
  end.

(** [a.reshape([h, w])] for a flat array [a]: one negative entry is
    inferred from the size ([_fix_unknown_dimension]). *)
Definition np_reshape2 {A} (flat : list A) (h w : Z) : res (list (list A)) :=
  let n := Z.of_nat (length flat) in
  if (h <? 0) && (w <? 0) then Raise ValueError   (* one unknown dimension only *)
  else if h <? 0 then
    (if (w =? 0) || negb (n mod w =? 0) then Raise ValueError
     else Ok (rows_of (Z.to_nat (n / w)) (Z.to_nat w) flat))
  else if w <? 0 then
    (if (h =? 0) || negb (n mod h =? 0) then Raise ValueError
     else Ok (rows_of (Z.to_nat h) (Z.to_nat (n / h)) flat))
  else if n =? h * w then Ok (rows_of (Z.to_nat h) (Z.to_nat w) flat)
  else Raise ValueError.

(** [np.flipud]. *)
Definition flipud {A} (rows : list (list A)) : list (list A) := rev rows.

(** Lines 287-292 with [height] and [width] as read from [self.metadata]. *)
Definition read_image (f : fh) (height width : Z) : res (list (list Z)) :=
  let! f := f_seek f (-2 * height * width) 2 in
  let! flat := np_fromfile_u16 f in
  let! rows := np_reshape2 flat height width in
  Ok (flipud rows).

(** The decoded object: the attributes [_load_file] sets. *)
Record leem := mk_leem {
  metadata : metadict;
  noimg : Z;
  versleemdata : Z;
  data : ndarray
}.

(** [-2*self.metadata['height']*self.metadata['width']] needs two [int]s:
    with a [list] stored under either key (a metadata record named
    [width] or [height]) the product is a [list] and [f.seek] raises
    [TypeError]. *)
Definition int_entry (md : metadict) (k : string) : res Z :=
  match md !! k with Some (VInt z) => Ok z | _ => Raise TypeError end.

(** [LEEMImage(filename)]: [_load_file] on the file's bytes.  [None] is
    the fuel bound of [meta_loop] running out, which never happens
    ([meta_decode_total] below). *)
Definition load_file (bytes : list byte) : option (res leem) :=
  match header_stage bytes with
  | Raise e => Some (Raise e)
  | Ok hs =>
      match meta_decode (hs_block hs) (hs_meta hs) with
      | None => None
      | Some r =>
          Some (let! lr := r in
                let md := snd lr in
                let! h := int_entry md "height" in
                let! w := int_entry md "width" in
                let! rows := read_image (hs_file hs) h w in
                Ok (mk_leem md (hs_noimg hs) (hs_versleemdata hs) (ArrU16 rows)))
      end
  end.

(* ================================================================= *)
(** ** Post-processing helpers *)

Definition grid := list (list double).

(** Python [==] on the values the metadata holds. *)
Fixpoint py_eqb (x y : pyval) : bool :=
  let num_eqb a d := deqb (DFin (a <? 0) (Z.abs a) 0) d in
  match x, y with
  | VInt a, VInt b => a =? b
  | VFloat a, VFloat b => deqb a b
  | VInt a, VFloat d | VFloat d, VInt a => num_eqb a d
  | VBool a, VBool b => Bool.eqb a b
  | VBool a, VInt b | VInt b, VBool a => (if a then 1 else 0) =? b
  | VStr a, VStr b => String.eqb a b
  | VBytes a, VBytes b =>
      Nat.eqb (length a) (length b)
      && forallb (fun p => Byte.eqb (fst p) (snd p)) (combine a b)
  | VNone, VNone => true
  | VDatetime a, VDatetime b => dt_us a =? dt_us b
  | VList l1, VList l2 =>
      (fix go (l1 l2 : list pyval) : bool :=
         match l1, l2 with
         | [], [] => true
         | a :: r1, b :: r2 => py_eqb a b && go r1 r2
         | _, _ => false
         end) l1 l2
  | _, _ => false
  end.

(** [self.metadata[k]]. *)
Definition md_get (md : metadict) (k : string) : res pyval :=
  match md !! k with Some v => Ok v | None => Raise KeyError end.

(** The [float64] view of an array ([uint16] values convert exactly). *)
Definition as_f64 (a : ndarray) : grid :=
  match a with
  | ArrU16 rows => map (map double_of_Z) rows
  | ArrF64 rows => rows
  end.

(** Element-wise binary operation on two arrays of the same shape; other
    shapes raise [ValueError] (numpy broadcasts extents equal to 1, which
    the arrays of a decoded image of equal width and height never need). *)
Definition zip_grid (f : double -> double -> double) (a b : grid) : res grid :=
  if Nat.eqb (length a) (length b)
     && forallb (fun p => Nat.eqb (length (fst p)) (length (snd p))) (combine a b)
  then Ok (map (fun p => map (fun q => f (fst q) (snd q)) (combine (fst p) (snd p)))
               (combine a b))
  else Raise ValueError.

(** [ndarray.max()]: NaN propagates; an empty array raises [ValueError]. *)
Definition grid_max (g : grid) : res double :=
  match concat g with
  | [] => Raise ValueError
  | x :: rest => Ok (fold_left np_maximum rest x)
  end.

Definition grid_map (f : double -> double) (g : grid) : grid := map (map f) g.

(** [normalizeOnCCD(self, lCCD)] (lines 294-303).  The method assigns no
    attribute: it returns the new array and [self] as it was; [lCCD] is
    only read.  ([type(lCCD) is not LEEMImage] cannot hold here, both
    arguments being [leem] objects.) *)
Definition normalizeOnCCD (self lCCD : leem) : res grid * leem :=
  (let! w1 := md_get (metadata self) "width" in
   let! w2 := md_get (metadata lCCD) "width" in
   let! h1 := md_get (metadata self) "height" in
   let! h2 := md_get (metadata lCCD) "height" in
   if negb (py_eqb w1 w2) || negb (py_eqb h1 h2) then Raise DimensionError
   else
     let! correctedData := zip_grid ddiv (as_f64 (data self)) (as_f64 (data lCCD)) in
     let! mx := grid_max correctedData in
     Ok (grid_map (fun x => ddiv x mx) correctedData), self).

(** [filterInelasticBkg(self, sigma)] (lines 305-311), with
    [scipy.ndimage.gaussian_filter] as the parameter [gaussian_filter].
    Line 309 assigns [self.data]: the object after the call is returned
    with the result. *)
Definition filterInelasticBkg (gaussian_filter : double -> grid -> grid)
  (self : leem) (sigma : double) : res (grid * leem) :=
  let d := as_f64 (data self) in
  let! mx := grid_max d in
  let nd := grid_map (fun x => ddiv x mx) d in
  let self' := mk_leem (metadata self) (noimg self) (versleemdata self) (ArrF64 nd) in
  let dataGaussFiltered := gaussian_filter sigma nd in
  let! r := zip_grid dsub nd dataGaussFiltered in
  Ok (r, self').

(** The default argument [sigma=15]. *)
Definition sigma_default : double := double_of_Z 15.

(** [np.linspace(lo, hi, 31)]: [i * step + lo], the last one [hi]. *)
Definition linspace31 (lo hi : double) : list double :=
  let step := ddiv (dsub hi lo) (double_of_Z 30) in
  map (fun i => dadd (dmul (double_of_Z (Z.of_nat i)) step) lo) (seq 0 30) ++ [hi].

(** The bin of [x] among the edges: [e_i <= x < e_(i+1)], the last bin
    closed (numpy's index computation with its edge corrections). *)
Fixpoint bin_index (x : double) (edges : list double) (i : Z) : Z :=
  match edges with
  | e0 :: ((e1 :: _ :: _) as rest) => if dlt x e1 then i else bin_index x rest (i + 1)
  | _ => i
  end.

Definition count_bins (xs : list double) (edges : list double) : list Z :=
  map (fun b => Z.of_nat (length (filter (fun x => bin_index x edges 0 =? Z.of_nat b) xs)))
      (seq 0 30).

Definition disfinite (x : double) : bool :=
  match x with DFin _ _ _ => true | _ => false end.

(** [np.histogram(data, bins=30)]: (counts, bin edges). *)
Definition np_histogram30 (g : grid) : res (list Z * list double) :=
  let xs := concat g in
  let! lohi :=
    (match xs with
     | [] => Ok (double_of_Z 0, double_of_Z 1)
     | x :: rest =>
         let lo := fold_left (fun a b => if disnan a || disnan b then DNaN
                                         else if dlt b a then b else a) rest x in
         let hi := fold_left np_maximum rest x in
         if negb (disfinite lo && disfinite hi) then Raise ValueError
         else if deqb lo hi then
           Ok (dsub lo (ddiv (double_of_Z 1) (double_of_Z 2)),
               dadd hi (ddiv (double_of_Z 1) (double_of_Z 2)))
         else Ok (lo, hi)
     end) in
  let edges := linspace31 (fst lohi) (snd lohi) in
  Ok (count_bins xs edges, edges).

(** Python indexing [l[i]], negative [i] counting from the end. *)
Definition py_nth {A} (l : list A) (i : Z) : res A :=
  let j := if i <? 0 then Z.of_nat (length l) + i else i in
  if j <? 0 then Raise IndexError
  else match nth_error l (Z.to_nat j) with Some x => Ok x | None => Raise IndexError end.

(** [np.argmax]: the first index of the largest value. *)
Fixpoint argmax_from (l : list Z) (i best_i best : Z) : Z :=
  match l with
  | [] => best_i
  | x :: rest => if best <? x then argmax_from rest (i + 1) i x
                 else argmax_from rest (i + 1) best_i best
  end.

Definition np_argmax (l : list Z) : Z :=
  match l with [] => 0 | x :: rest => argmax_from rest 1 0 x end.

(** Lines 341-352 of [get_levels]: the levels from the histogram. *)
Definition levels_of_histogram (counts : list Z) (edges : list double)
  : res (double * double) :=
  let! minlevel := py_nth edges 0 in
  let nhotpixel := 10 in
  let! c1 := py_nth counts (-1) in
  let! c2 := py_nth counts (-2) in
  (* [data_histogram[0][-2] < nhotpixel/2] compares with the float 5.0 *)
  if (c1 <? nhotpixel) && (2 * c2 <? nhotpixel) then
    let rn_maxlevel := np_argmax (rev counts) in
    let! maxlevel := py_nth edges (- rn_maxlevel) in
    Ok (minlevel, maxlevel)
  else
    let! maxlevel := py_nth edges (-2) in
    Ok (minlevel, maxlevel).

(** Python slice bounds [i:j] on a sequence of length [n]. *)
Definition slice_bound (n i : Z) : Z :=
  let i' := if i <? 0 then i + n else i in Z.max 0 (Z.min n i').

Definition py_slice {A} (l : list A) (i j : Z) : list A :=
  let n := Z.of_nat (length l) in
  let a := slice_bound n i in
  let b := slice_bound n j in
  firstn (Z.to_nat (b - a)) (skipn (Z.to_nat a) l).

(** [np.sqrt(2)], the binary64 value nearest to the square root of 2. *)
Definition np_sqrt2 : double := DFin false 6369051672525773 (-52).

(** [int(x)] of a finite float: truncation toward zero. *)
Definition py_int_of_double (x : double) : res Z := py_long_from_double (snd (dmodf x)).

(** [inner_square_size(length)] (lines 322-325). *)
Definition inner_square_size (length : Z) : res Z :=
  let! v := py_int_of_double (ddiv (double_of_Z length) (dmul (double_of_Z 2) np_sqrt2)) in
  Ok (v - 5).

(** [get_levels(self, data)] (lines 313-352); [None] for [data] is the
    default argument. *)
Definition get_levels (self : leem) (arg : option ndarray) : res (double * double) :=
  let d := match arg with Some a => a | None => data self end in
  let g := as_f64 d in
  let! g :=
    match metadata self !! "LEED" with
    | Some (VBool false) =>
        let nrows := Z.of_nat (length g) in
        let ncols := match g with r :: _ => Z.of_nat (length r) | [] => 0 end in
        let! new_nrows := inner_square_size nrows in
        let! new_ncols := inner_square_size ncols in
        let! hr := py_int_of_double (ddiv (double_of_Z nrows) (double_of_Z 2)) in
        let! hc := py_int_of_double (ddiv (double_of_Z ncols) (double_of_Z 2)) in
        Ok (map (fun r => py_slice r (hc - new_ncols) (hc + new_ncols))
                (py_slice g (hr - new_nrows) (hr + new_nrows)))
    | _ => Ok g    (* KeyError: pass, or LEED *)
    end in
  let! h := np_histogram30 g in
  levels_of_histogram (fst h) (snd h).

(* ================================================================= *)
(** ** Concrete files *)

Definition byte_of_Z (z : Z) : byte :=
  match Byte.of_N (Z.to_N z) with Some b => b | None => Byte.x00 end.

Definition zbytes (l : list Z) : list byte := map byte_of_Z l.

Definition zeros (n : nat) : list Z := repeat 0 n.

(** A file whose fixed header is all zero except width [w], height [h]
    (two bytes each, little-endian) and [metadata_block_version = 2],
    followed by a 256-byte metadata block and the payload. *)
Definition synth_file (w0 w1 h0 h1 : Z) (block payload : list Z) : list byte :=
  zbytes (zeros 40 ++ [w0; w1; h0; h1] ++ zeros 86 ++ [2; 0]
          ++ block ++ zeros (256 - length block) ++ payload).

(** The end-to-end scenario of the spec: 2x2, block = tag 255, payload
    [1, 2, 3, 4] as little-endian [uint16]. *)
Definition minimal_file : list byte :=
  synth_file 2 0 2 0 [255] [1; 0; 2; 0; 3; 0; 4; 0].

(** Files and records used by the examples below. *)
Definition unknown_tag_block : list byte :=
  zbytes [104; 0; 0; 128; 63; 3; 0; 1; 240; 5; 0; 255; 0; 0; 255].

Definition hot_file : list byte := synth_file 3 0 1 0 [255] [0; 0; 0; 0; 30; 0].

(** A standard-field record (tag 11) named "A" with unit code '5'. *)
Definition unit5_record : list byte := zbytes [11; 65; 53; 0; 0; 0; 128; 63].

(** A FOV record (tag 110) holding "12.5" followed by the micro sign and "m". *)
Definition fov_12_5_record : list byte :=
  zbytes [110; 49; 50; 46; 53; 181; 109; 0; 0; 0; 128; 63; 255].

(** The tags of the [if] chain of the loop, and 255. *)
Definition handled_tags : list Z :=
  known_tags ++ varian_tags ++ [255; 110; 104; 100; 233; 240; 242; 243; 244].

(** [offset] is unbound or a positive count. *)
Definition offset_ok (off : option Z) : Prop :=
  match off with None => True | Some k => 1 <= k end.

(** Two 1x1 images: a dark frame (pixel 0) and a CCD frame (pixel 1). *)
Definition dark_file : list byte := synth_file 1 0 1 0 [255] [0; 0].
Definition ccd_file : list byte := synth_file 1 0 1 0 [255] [1; 0].

(** The Gaussian filter as the identity (any filter gives the same
    [self.data] after [filterInelasticBkg]). *)
Definition gauss_identity (sigma : double) (g : grid) : grid := g.

(** IEEE [x <= y]. *)
Definition dle (x y : double) : bool := dlt x y || deqb x y.


(** The epoch of [convert_ad_timestamp]. *)
Definition ad_epoch : datetime := mk_datetime 1601 1 1 0 0 0 0.

(** A finite non-negative double, and a finite positive one. *)
Definition fin_nn (x : double) : Prop := exists m e, x = DFin false m e /\ 0 <= m.

Definition pos_nn (x : double) : Prop := exists m e, x = DFin false m e /\ 0 < m.

(** The range of a [uint16] pixel, and the range without 0. *)
Definition in_u16 (v : Z) : bool := (0 <=? v) && (v <=? 65535).
Definition in_u16_pos (v : Z) : bool := (1 <=? v) && (v <=? 65535).

(** One row of [correctedData = self.data / lCCD.data]. *)
Definition quot_row (ra rb : list double) : list double :=
  map (fun q => ddiv (fst q) (snd q)) (combine ra rb).

(** A 2x2 CCD frame with no zero pixel. *)
Definition ccd22_file : list byte := synth_file 2 0 2 0 [255] [1; 0; 2; 0; 1; 0; 1; 0].

(* ================================================================= *)
(** * Theorems *)

(** ** The file object keeps its bytes *)

Lemma f_read_bytes f n b f' : f_read f n = (b, f') -> fbytes f' = fbytes f.
Proof. unfold f_read. intros [= _ <-]. reflexivity. Qed.

Lemma f_seek_bytes f o w f' : f_seek f o w = Ok f' -> fbytes f' = fbytes f.
Proof. unfold f_seek. destruct (_ <? 0); intros [= <-]; reflexivity. Qed.

Lemma read_h_bytes f v f' : read_h f = Ok (v, f') -> fbytes f' = fbytes f.
Proof.
  unfold read_h. destruct (f_read f 2) as [b f1] eqn:E. simpl.
  destruct (unpack_h b); simpl; intros [= _ <-]. exact (f_read_bytes _ _ _ _ E).
Qed.

Lemma read_h_into_bytes k f md f' md' :
  read_h_into k f md = Ok (f', md') -> fbytes f' = fbytes f.
Proof.
  unfold read_h_into. destruct (read_h f) as [[v f1]|] eqn:E; simpl; [|discriminate].
  intros [= <- _]. exact (read_h_bytes _ _ _ E).
Qed.

Ltac split_res :=
  repeat match goal with
  | H : match ?m with Ok _ => _ | Raise _ => _ end = _ |- _ =>
      let E := fresh "E" in destruct m eqn:E; [|discriminate H]; cbn beta iota in H
  | H : match ?m with pair _ _ => _ end = _ |- _ =>
      let E := fresh "E" in destruct m eqn:E; cbn beta iota in H
  | H : (if ?c then _ else _) = _ |- _ =>
      let E := fresh "E" in destruct c eqn:E; cbn beta iota in H
  end.

Ltac bytes_facts :=
  repeat match goal with
  | E : ?a = (_, _) |- _ => is_var a; subst a
  | E : Ok _ = Ok _ |- _ => injection E as E
  | E : (_, _) = (_, _) |- _ => injection E as E ?
  | E : read_h _ = Ok (_, _) |- _ => apply read_h_bytes in E
  | E : read_h_into _ _ _ = Ok (_, _) |- _ => apply read_h_into_bytes in E
  | E : f_seek _ _ _ = Ok _ |- _ => apply f_seek_bytes in E
  | E : f_read _ _ = (_, _) |- _ => apply f_read_bytes in E
  end.

Lemma header_tail_bytes f md hs :
  header_tail f md = Ok hs -> fbytes (hs_file hs) = fbytes f.
Proof.
  unfold header_tail, res_bind. intro H. split_res.
  all: bytes_facts.
  all: subst; simpl in *; congruence.
Qed.

Lemma header_dims_bytes bytes f md :
  header_dims bytes = Ok (f, md) -> fbytes f = bytes.
Proof.
  unfold header_dims, res_bind. intro H. split_res.
  all: bytes_facts.
  all: subst; simpl in *; congruence.
Qed.
Lemma header_stage_bytes bytes hs :
  header_stage bytes = Ok hs -> fbytes (hs_file hs) = bytes.
Proof.
  unfold header_stage. destruct (header_dims bytes) as [[f md]|] eqn:E; simpl; [|discriminate].
  intro H. rewrite (header_tail_bytes _ _ _ H). exact (header_dims_bytes _ _ _ E).
Qed.

Lemma le16_items_length l : length (le16_items l) = (length l / 2)%nat.
Proof.
  assert (forall n l, (length l <= n)%nat -> length (le16_items l) = (length l / 2)%nat) as G.
  { induction n as [|n IH]; intros [|a [|b l']] Hl; cbn [le16_items length] in *;
      try reflexivity; try lia.
    rewrite IH by lia.
    replace (S (S (length l'))) with (length l' + 1 * 2)%nat by lia.
    rewrite Nat.div_add by lia. lia. }
  apply G with (n := length l). lia.
Qed.

Lemma rows_of_length {A} h w (flat : list A) : length (rows_of h w flat) = h.
Proof. revert flat; induction h; intros; simpl; [reflexivity|]. rewrite IHh. reflexivity. Qed.

Lemma rows_of_widths {A} h w (flat : list A) :
  (h * w <= length flat)%nat -> Forall (fun r => length r = w) (rows_of h w flat).
Proof.
  revert flat; induction h as [|h IH]; intros flat Hf; simpl; constructor.
  - rewrite length_firstn. lia.
  - apply IH. rewrite length_skipn. lia.
Qed.

Lemma read_image_ok f h w :
  0 <= h -> 0 <= w -> 2 * h * w <= Z.of_nat (length (fbytes f)) ->
  read_image f h w =
  Ok (flipud (rows_of (Z.to_nat h) (Z.to_nat w)
       (le16_items (skipn (length (fbytes f) - Z.to_nat (2 * h * w)) (fbytes f))))).
Proof.
  intros Hh Hw Hl. unfold read_image, f_seek, np_fromfile_u16, np_reshape2. simpl.
  destruct (Z.of_nat (length (fbytes f)) + -2 * h * w <? 0) eqn:E1; [lia|]. simpl.
  destruct (Z.of_nat (length (fbytes f)) - (Z.of_nat (length (fbytes f)) + -2 * h * w) <? 0) eqn:E2; [lia|].
  simpl.
  replace (Z.to_nat (Z.of_nat (length (fbytes f)) + -2 * h * w))
    with (length (fbytes f) - Z.to_nat (2 * h * w))%nat by lia.
  rewrite le16_items_length, length_skipn.
  replace (Z.of_nat ((length (fbytes f) - (length (fbytes f) - Z.to_nat (2 * h * w))) / 2))
    with (h * w).
  - destruct (h <? 0) eqn:E3; [lia|]. destruct (w <? 0) eqn:E4; [lia|].
    cbn [andb]. rewrite Z.eqb_refl. reflexivity.
  - replace (length (fbytes f) - (length (fbytes f) - Z.to_nat (2 * h * w)))%nat
      with (Z.to_nat (h * w) * 2)%nat by nia.
    rewrite Nat.div_mul by lia. lia.
Qed.

(** C1.  For a file whose header and metadata block decode and whose
    [height] [h] and [width] [w] are non-negative [int]s with [2*h*w]
    bytes available, the pixels are the last [2*h*w] bytes read as
    little-endian [uint16] samples, cut row-major into [h] rows of [w]
    columns, rows reversed; the minimal 2x2 file with payload
    [1,2,3,4] decodes to [[3,4],[1,2]]. *)
Theorem load_file_pixels (bytes : list byte) (hs : header_state) (e : loop_end)
  (md : metadict) (h w : Z) :
  header_stage bytes = Ok hs ->
  meta_decode (hs_block hs) (hs_meta hs) = Some (Ok (e, md)) ->
  md !! "height" = Some (VInt h) -> md !! "width" = Some (VInt w) ->
  0 <= h -> 0 <= w -> 2 * h * w <= Z.of_nat (length bytes) ->
  let payload := skipn (length bytes - Z.to_nat (2 * h * w)) bytes in
  let rows := rows_of (Z.to_nat h) (Z.to_nat w) (le16_items payload) in
  length payload = Z.to_nat (2 * h * w) /\
  length rows = Z.to_nat h /\ Forall (fun r => length r = Z.to_nat w) rows /\
  load_file bytes
  = Some (Ok (mk_leem md (hs_noimg hs) (hs_versleemdata hs) (ArrU16 (flipud rows)))) /\
  (match load_file minimal_file with
   | Some (Ok o) => data o = ArrU16 [[3; 4]; [1; 2]]
   | _ => False
   end).
Proof.
  intros Hhs Hmd Hh Hw H0 W0 Hlen payload rows.
  assert (Hp : length payload = Z.to_nat (2 * h * w)).
  { unfold payload. rewrite length_skipn. lia. }
  split; [exact Hp|]. split; [apply rows_of_length|]. split.
  { apply rows_of_widths. rewrite le16_items_length, Hp.
    replace (Z.to_nat (2 * h * w)) with (Z.to_nat (h * w) * 2)%nat by nia.
    rewrite Nat.div_mul by lia. nia. }
  split; [|vm_compute; reflexivity].
  unfold load_file. rewrite Hhs, Hmd. cbn [res_bind snd]. unfold int_entry.
  rewrite Hh, Hw. cbn [res_bind].
  pose proof (header_stage_bytes _ _ Hhs) as Hb.
  rewrite read_image_ok by (rewrite ?Hb; lia). rewrite Hb. reflexivity.
Qed.

Lemma load_file_pixels_witness :
  exists hs e md,
    header_stage minimal_file = Ok hs /\
    meta_decode (hs_block hs) (hs_meta hs) = Some (Ok (e, md)) /\
    md !! "height" = Some (VInt 2) /\ md !! "width" = Some (VInt 2) /\
    load_file minimal_file
    = Some (Ok (mk_leem md (hs_noimg hs) (hs_versleemdata hs) (ArrU16 [[3; 4]; [1; 2]]))).
Proof.
  match eval vm_compute in (header_stage minimal_file) with
  | Ok ?v => pose (hs := v); exists hs end.
  match eval vm_compute in (meta_decode (hs_block hs) (hs_meta hs)) with
  | Some (Ok (?v1, ?v2)) => pose (e := v1); pose (md := v2); exists e, md end.
  assert (Hhs : header_stage minimal_file = Ok hs) by (vm_compute; reflexivity).
  assert (Hmd : meta_decode (hs_block hs) (hs_meta hs) = Some (Ok (e, md)))
    by (vm_compute; reflexivity).
  destruct (load_file_pixels minimal_file hs e md 2 2 Hhs Hmd) as (_ & _ & _ & Hl & _);
    [vm_compute; reflexivity | vm_compute; reflexivity | lia | lia | vm_compute; discriminate |].
  split; [exact Hhs|]. split; [exact Hmd|].
  split; [vm_compute; reflexivity|]. split; [vm_compute; reflexivity|].
  rewrite Hl. vm_compute. reflexivity.
Defined.

(** ** Signed dimensions *)

Lemma read_h_into_eq k f md f' md' :
  read_h_into k f md = Ok (f', md') -> exists v, md' = <[k := VInt v]> md.
Proof.
  unfold read_h_into. destruct (read_h f) as [[v f1]|]; simpl; [|discriminate].
  intros [= _ <-]. eauto.
Qed.

Lemma header_tail_dims f md hs :
  header_tail f md = Ok hs ->
  hs_meta hs !! "width" = md !! "width" /\ hs_meta hs !! "height" = md !! "height".
Proof.
  unfold header_tail, res_bind. intro H. split_res.
  all: repeat match goal with
  | E : ?a = (_, _) |- _ => is_var a; subst a
  | E : Ok _ = Ok _ |- _ => injection E as E
  | E : (_, _) = (_, _) |- _ => injection E as E ?
  | E : read_h_into _ _ _ = Ok (_, _) |- _ =>
      let v := fresh "v" in apply read_h_into_eq in E as [v E]
  end.
  all: subst; simpl.
  all: split; rewrite ?lookup_insert_ne by discriminate; reflexivity.
Qed.

Lemma f_read_full bytes p n :
  0 <= p -> 0 <= n -> p + n <= Z.of_nat (length bytes) ->
  f_read (mk_fh bytes p) n
  = (firstn (Z.to_nat n) (skipn (Z.to_nat p) bytes), mk_fh bytes (p + n)).
Proof.
  intros Hp Hn Hl. unfold f_read. cbn [fbytes fpos].
  destruct (n <? 0) eqn:E; [lia|].
  rewrite length_firstn, length_skipn. f_equal. f_equal. lia.
Qed.

Lemma read_h_into_full k bytes p md :
  0 <= p -> p + 2 <= Z.of_nat (length bytes) ->
  exists v, unpack_h (firstn 2 (skipn (Z.to_nat p) bytes)) = Ok v /\
    read_h_into k (mk_fh bytes p) md = Ok (mk_fh bytes (p + 2), <[k := VInt v]> md).
Proof.
  intros Hp Hl. unfold read_h_into, read_h. rewrite f_read_full by lia.
  change (Z.to_nat 2) with 2%nat.
  assert (Hlen : length (firstn 2 (skipn (Z.to_nat p) bytes)) = 2%nat)
    by (rewrite length_firstn, length_skipn; lia).
  destruct (firstn 2 (skipn (Z.to_nat p) bytes)) as [|a [|b [|c l]]];
    cbn in Hlen; try discriminate.
  eexists. split; reflexivity.
Qed.

Lemma f_seek_cur bytes p o :
  0 <= p + o -> f_seek (mk_fh bytes p) o 1 = Ok (mk_fh bytes (p + o)).
Proof. intro H. unfold f_seek. cbn. destruct (p + o <? 0) eqn:E; [lia|reflexivity]. Qed.

Ltac step_h k pos v Ev :=
  match goal with |- context [read_h_into k (mk_fh ?bytes ?p) ?m] =>
    let E := fresh "E" in
    replace p with pos by lia;
    destruct (read_h_into_full k bytes pos m) as (v & Ev & E); [lia|lia|];
    rewrite E; cbn [res_bind]
  end.

Lemma header_dims_layout bytes :
  44 <= Z.of_nat (length bytes) ->
  exists md w h,
    header_dims bytes = Ok (mk_fh bytes 44, md) /\
    unpack_h (firstn 2 (skipn 40 bytes)) = Ok w /\
    unpack_h (firstn 2 (skipn 42 bytes)) = Ok h /\
    md !! "width" = Some (VInt w) /\ md !! "height" = Some (VInt h).
Proof.
  intro Hl. unfold header_dims. rewrite f_read_full by lia.
  step_h "size" 20 v1 E1. step_h "version" 22 v2 E2. step_h "bitsperpix" 24 v3 E3.
  rewrite f_seek_cur by lia. cbn [res_bind].
  rewrite f_seek_cur by lia. cbn [res_bind].
  step_h "width" 40 w Ew. step_h "height" 42 h Eh.
  exists (<["height" := VInt h]> (<["width" := VInt w]> (<["bitsperpix" := VInt v3]>
    (<["version" := VInt v2]> (<["size" := VInt v1]> (<["id" := VBytes (split0_first
    (firstn (Z.to_nat 20) (skipn (Z.to_nat 0) bytes)))]> ∅)))))), w, h.
  split; [reflexivity|]. split; [exact Ew|]. split; [exact Eh|].
  split.
  - rewrite lookup_insert_ne by discriminate. apply lookup_insert_eq.
  - apply lookup_insert_eq.
Qed.

Lemma read_image_negative f h w :
  h < 0 \/ w < 0 -> exists ex, read_image f h w = Raise ex.
Proof.
  intro Hneg. unfold read_image, f_seek, np_fromfile_u16, np_reshape2. cbn [fbytes fpos].
  destruct (Z.eqb_spec 2 2) as [_|]; [|congruence].
  set (n := Z.of_nat (length (fbytes f))).
  destruct (n + -2 * h * w <? 0) eqn:E1; [eauto|]. cbn [res_bind fbytes fpos].
  change (Z.of_nat (length (fbytes f))) with n.
  destruct (n - (n + -2 * h * w) <? 0) eqn:E2.
  - replace (Z.quot (n - (n + -2 * h * w)) 2) with (h * w)
      by (replace (n - (n + -2 * h * w)) with ((h * w) * 2) by ring;
          rewrite Z.quot_mul by lia; reflexivity).
    destruct (h * w =? 0) eqn:E3; [lia|]. cbn. eauto.
  - cbn [res_bind].
    destruct (h <? 0) eqn:Eh; destruct (w <? 0) eqn:Ew; cbn [andb negb orb]; try eauto.
    + destruct (w =? 0) eqn:Ew0; cbn [orb]; [eauto|]. nia.
    + destruct (h =? 0) eqn:Eh0; cbn [orb]; [eauto|]. nia.
    + lia.
Qed.

Lemma bz_range b : 0 <= bz b <= 255.
Proof. unfold bz. pose proof (Byte.to_N_bounded b). lia. Qed.

Lemma unpack_h_high lo hi v : unpack_h [lo; hi] = Ok v -> 128 <= bz hi -> v < 0.
Proof.
  unfold unpack_h. intros [= <-] Hhi. pose proof (bz_range lo). pose proof (bz_range hi).
  destruct (32768 <=? bz lo + 256 * bz hi) eqn:E; lia.
Qed.

(** C10.  [width] and [height] are read with [<h] (signed): a stored
    high byte of 128 or more gives a negative value, and [_load_file]
    passes the two values unchecked to [read_image] (the seek by
    [-2*h*w] from the end and the reshape to [[h, w]]).  With a negative
    dimension the file then fails only inside [f.seek]/numpy. *)
Theorem load_file_signed_dims (pre rest : list byte) (w0 w1 h0 h1 : byte)
  (hs : header_state) (e : loop_end) (md : metadict) :
  length pre = 40%nat ->
  header_stage (pre ++ [w0; w1; h0; h1] ++ rest) = Ok hs ->
  meta_decode (hs_block hs) (hs_meta hs) = Some (Ok (e, md)) ->
  md !! "width" = hs_meta hs !! "width" ->
  md !! "height" = hs_meta hs !! "height" ->
  exists w h,
    unpack_h [w0; w1] = Ok w /\ unpack_h [h0; h1] = Ok h /\
    (128 <= bz w1 -> w < 0) /\ (128 <= bz h1 -> h < 0) /\
    load_file (pre ++ [w0; w1; h0; h1] ++ rest)
    = Some (let! rows := read_image (hs_file hs) h w in
            Ok (mk_leem md (hs_noimg hs) (hs_versleemdata hs) (ArrU16 rows))) /\
    (h < 0 \/ w < 0 ->
     exists ex, load_file (pre ++ [w0; w1; h0; h1] ++ rest) = Some (Raise ex)).
Proof.
  intros Hpre Hhs Hmd Hw Hh.
  assert (Hl : 44 <= Z.of_nat (length (pre ++ [w0; w1; h0; h1] ++ rest)))
    by (rewrite !length_app; cbn [length]; lia).
  destruct (header_dims_layout _ Hl) as (md0 & w & h & Hd & Ew & Eh & Hmw & Hmh).
  rewrite skipn_app, skipn_all2 in Ew, Eh by lia. rewrite Hpre in Ew, Eh.
  cbn in Ew, Eh.
  assert (Ht : header_tail (mk_fh (pre ++ [w0; w1; h0; h1] ++ rest) 44) md0 = Ok hs).
  { unfold header_stage in Hhs. rewrite Hd in Hhs. exact Hhs. }
  destruct (header_tail_dims _ _ _ Ht) as [Tw Th].
  assert (Hload : load_file (pre ++ [w0; w1; h0; h1] ++ rest)
    = Some (let! rows := read_image (hs_file hs) h w in
            Ok (mk_leem md (hs_noimg hs) (hs_versleemdata hs) (ArrU16 rows)))).
  { unfold load_file. rewrite Hhs, Hmd. cbn [res_bind snd]. unfold int_entry.
    rewrite Hh, Th, Hmh, Hw, Tw, Hmw. reflexivity. }
  exists w, h. split; [exact Ew|]. split; [exact Eh|].
  split; [exact (unpack_h_high _ _ _ Ew)|]. split; [exact (unpack_h_high _ _ _ Eh)|].
  split; [exact Hload|].
  intro Hneg. rewrite Hload.
  destruct (read_image_negative (hs_file hs) h w Hneg) as [ex Hex].
  rewrite Hex. eauto.
Qed.

Lemma load_file_signed_dims_witness :
  exists hs e md,
    header_stage (zbytes (zeros 40) ++ zbytes [255; 255; 255; 255]
                  ++ zbytes (zeros 86 ++ [2; 0; 255] ++ zeros 255 ++ [1; 0; 2; 0])) = Ok hs /\
    meta_decode (hs_block hs) (hs_meta hs) = Some (Ok (e, md)) /\
    md !! "width" = Some (VInt (-1)) /\ md !! "height" = Some (VInt (-1)) /\
    exists ex,
      load_file (zbytes (zeros 40) ++ zbytes [255; 255; 255; 255]
                 ++ zbytes (zeros 86 ++ [2; 0; 255] ++ zeros 255 ++ [1; 0; 2; 0]))
      = Some (Raise ex).
Proof.
  match eval vm_compute in (header_stage (zbytes (zeros 40) ++ zbytes [255; 255; 255; 255]
                  ++ zbytes (zeros 86 ++ [2; 0; 255] ++ zeros 255 ++ [1; 0; 2; 0]))) with
  | Ok ?v => pose (hs := v); exists hs end.
  match eval vm_compute in (meta_decode (hs_block hs) (hs_meta hs)) with
  | Some (Ok (?v1, ?v2)) => pose (e := v1); pose (md := v2); exists e, md end.
  assert (Hhs : header_stage (zbytes (zeros 40) ++ zbytes [255; 255; 255; 255]
                  ++ zbytes (zeros 86 ++ [2; 0; 255] ++ zeros 255 ++ [1; 0; 2; 0])) = Ok hs)
    by (vm_compute; reflexivity).
  assert (Hmd : meta_decode (hs_block hs) (hs_meta hs) = Some (Ok (e, md)))
    by (vm_compute; reflexivity).
  destruct (load_file_signed_dims (zbytes (zeros 40))
              (zbytes (zeros 86 ++ [2; 0; 255] ++ zeros 255 ++ [1; 0; 2; 0]))
              (byte_of_Z 255) (byte_of_Z 255) (byte_of_Z 255) (byte_of_Z 255) hs e md)
    as (w & h & Ew & Eh & _ & _ & _ & Hneg);
    [vm_compute; reflexivity | exact Hhs | exact Hmd
    | vm_compute; reflexivity | vm_compute; reflexivity |].
  vm_compute in Ew. injection Ew as <-.
  split; [exact Hhs|]. split; [exact Hmd|].
  split; [vm_compute; reflexivity|]. split; [vm_compute; reflexivity|].
  apply Hneg. right. lia.
Defined.

(** ** The metadata loop *)

Lemma read_field_offset hdr pos n u v off :
  read_field hdr pos = Ok (n, u, v, off) -> 5 <= off.
Proof. unfold read_field, res_bind. intro H. split_res. injection H as <- <- <- <-. lia. Qed.

Lemma read_varian_offset hdr pos n u v off :
  read_varian hdr pos = Ok (n, u, v, off) -> 6 <= off.
Proof. unfold read_varian, res_bind. intro H. split_res. injection H as <- <- <- <-. lia. Qed.

Lemma fov_record_offset hdr pos md md' off :
  fov_record hdr pos md = Ok (md', off) -> 5 <= off.
Proof. unfold fov_record, res_bind. intro H. split_res. injection H as <- <-. lia. Qed.

Lemma handle_tag_offset b hdr pos off md md' off' :
  offset_ok off -> handle_tag b hdr pos off md = Ok (md', off') -> offset_ok off'.
Proof.
  intros Hok. unfold handle_tag, res_bind. intro H. split_res.
  all: repeat match goal with
  | E : ?a = (_, _) |- _ => is_var a; subst a
  | E : read_field _ _ = Ok _ |- _ => apply read_field_offset in E
  | E : read_varian _ _ = Ok _ |- _ => apply read_varian_offset in E
  | E : fov_record _ _ _ = Ok _ |- _ => apply fov_record_offset in E
  end.
  all: try (injection H as <- <-; first [exact Hok | cbn; lia]).
  destruct a as [m k]. apply fov_record_offset in E1. injection H as <- <-. cbn. lia.
Qed.

Lemma meta_loop_outcome fuel hdr pos off md :
  0 <= pos <= Z.of_nat (length hdr) -> offset_ok off ->
  (length hdr < Z.to_nat pos + fuel)%nat ->
  match meta_loop fuel hdr pos off md with
  | None => False
  | Some (Ok (LoopBreak p, _)) =>
      pos <= p < Z.of_nat (length hdr) /\
      exists bb, nth_error hdr (Z.to_nat p) = Some bb /\ bz bb = 255
  | Some (Ok (LoopExhausted p, _)) => p = Z.of_nat (length hdr)
  | Some (Raise _) => True
  end.
Proof.
  revert pos off md. induction fuel as [|fuel IH]; intros pos off md Hpos Hok Hfuel; [lia|].
  cbn [meta_loop].
  destruct (nth_error hdr (Z.to_nat pos)) as [bb|] eqn:Enth.
  - assert (Hlt : (Z.to_nat pos < length hdr)%nat)
      by (apply nth_error_Some; congruence).
    destruct (bz bb =? 255) eqn:E255.
    + split; [lia|]. exists bb. split; [exact Enth|]. lia.
    + destruct (handle_tag (bz bb) hdr pos off md) as [[md' off']|ex] eqn:Eh; [|exact I].
      pose proof (handle_tag_offset _ _ _ _ _ _ _ Hok Eh) as Hok'.
      destruct off' as [k|]; [|exact I].
      cbn in Hok'.
      destruct (Z.of_nat (length hdr) <? pos + 1 + k) eqn:Elen; [exact I|].
      specialize (IH (pos + k + 1) (Some k) md').
      destruct (meta_loop fuel hdr (pos + k + 1) (Some k) md') as [[[[p|p] m]|ex]|];
        try exact I.
      * destruct IH as [Hp Hb]; [lia|exact Hok'|lia|]. split; [lia|exact Hb].
      * apply IH; [lia|exact Hok'|lia].
      * apply IH; [lia|exact Hok'|lia].
  - apply nth_error_None in Enth. lia.
Qed.

(** C8 (corrected).  The metadata loop always ends (its fuel never runs
    out), in one of three ways: a [break] at a tag position holding 255
    inside the block; the cursor exactly at the end of the block; or an
    exception (a record cut by the end of the block, an unbound
    [offset], ...). *)
Theorem meta_decode_outcome (header : list byte) (md : metadict) :
  match meta_decode header md with
  | None => False
  | Some (Ok (LoopBreak p, _)) =>
      0 <= p < Z.of_nat (length header) /\
      exists bb, nth_error header (Z.to_nat p) = Some bb /\ bz bb = 255
  | Some (Ok (LoopExhausted p, _)) => p = Z.of_nat (length header)
  | Some (Raise _) => True
  end.
Proof.
  unfold meta_decode.
  pose proof (meta_loop_outcome (S (length header)) header 0 None md) as G.
  destruct (meta_loop (S (length header)) header 0 None md) as [[[[p|p] m]|ex]|];
    try exact I; apply G; cbn; lia.
Qed.

Lemma meta_decode_truncated_record :
  meta_decode (zbytes [104; 1; 2]) ∅ = Some (Raise StructError).
Proof. vm_compute. reflexivity. Qed.

(** C2 (code bug).  At a tag byte the [if] chain does not handle, the
    last branch only logs: [offset] keeps the value of the previous
    record, so the cursor skips that many bytes more than the tag, and
    with no previous record [offset] is unbound and the loop raises
    [UnboundLocalError].  A file whose block starts with tag 1 fails to
    load; in [unknown_tag_block] the record at index 8 is skipped. *)
Theorem meta_loop_unknown_tag (fuel : nat) (hdr : list byte) (pos k : Z)
  (md : metadict) (bb : byte) :
  nth_error hdr (Z.to_nat pos) = Some bb ->
  memZ (bz bb) handled_tags = false ->
  meta_loop (S fuel) hdr pos (Some k) md
  = (if Z.of_nat (length hdr) <? pos + 1 + k then Some (Raise StopIteration)
     else meta_loop fuel hdr (pos + k + 1) (Some k) md) /\
  meta_loop (S fuel) hdr pos None md = Some (Raise UnboundLocalError) /\
  meta_decode (zbytes [1; 255]) ∅ = Some (Raise UnboundLocalError) /\
  load_file (synth_file 2 0 2 0 [1; 255] [1; 0; 2; 0; 3; 0; 4; 0])
  = Some (Raise UnboundLocalError) /\
  (exists md', meta_decode unknown_tag_block ∅ = Some (Ok (LoopBreak 14, md')) /\
               md' !! "MirrorState1" = None).
Proof.
  intros Hnth Hunk.
  unfold handled_tags, memZ in Hunk. rewrite !existsb_app in Hunk.
  apply orb_false_elim in Hunk as [Hk Hunk]. apply orb_false_elim in Hunk as [Hv Hunk].
  cbn [existsb] in Hunk.
  repeat (apply orb_false_elim in Hunk as [? Hunk]).
  assert (Hh : forall off, handle_tag (bz bb) hdr pos off md = Ok (md, off)).
  { intro off. unfold handle_tag, memZ. rewrite Hk, Hv.
    repeat match goal with H : (bz bb =? _) = false |- _ => rewrite H; clear H end.
    reflexivity. }
  split; [|split; [|split; [vm_compute; reflexivity|split; [vm_compute; reflexivity|]]]].
  - cbn [meta_loop]. rewrite Hnth.
    match goal with H : (bz bb =? 255) = false |- _ => rewrite H end.
    rewrite Hh. reflexivity.
  - cbn [meta_loop]. rewrite Hnth.
    match goal with H : (bz bb =? 255) = false |- _ => rewrite H end.
    rewrite Hh. reflexivity.
  - eexists. split; [vm_compute; reflexivity|]. vm_compute. reflexivity.
Qed.

Lemma meta_loop_unknown_tag_witness :
  nth_error unknown_tag_block 7 = Some (byte_of_Z 1) /\
  meta_loop 9 unknown_tag_block 7 (Some 6) ∅
  = meta_loop 8 unknown_tag_block 14 (Some 6) ∅.
Proof.
  split; [vm_compute; reflexivity|].
  destruct (meta_loop_unknown_tag 8 unknown_tag_block 7 6 ∅ (byte_of_Z 1))
    as [H _]; [vm_compute; reflexivity|vm_compute; reflexivity|].
  rewrite H. vm_compute. reflexivity.
Defined.

(** ** Records of the metadata block and the levels *)

Lemma read_field_unit5 :
  read_field unit5_record 0 = Ok ("A", " K", DFin false 8388608 (-23), 7).
Proof. vm_compute. reflexivity. Qed.

Lemma last_byte_ok (l : list byte) : l <> [] -> exists c, last_byte l = Ok c /\ 0 <= c <= 255.
Proof.
  intro Hl. unfold last_byte. destruct (rev l) as [|x r] eqn:E.
  - apply (f_equal (@rev byte)) in E. rewrite rev_involutive in E. subst. contradiction.
  - exists (bz x). split; [reflexivity|apply bz_range].
Qed.

(** C6 (corrected).  [read_field] reads the unit code as the character
    [chr(temp[-1])]: an ASCII digit [d] selects [units_dict[d]], whose
    entry 5 is " K" (with a space), and any other character raises
    [ValueError] in [int]. *)
Theorem read_field_units (hdr : list byte) (pos : Z) (name : string) (v : double) :
  let temp := split0_first (slice_from hdr (pos + 1)) in
  let lt := Z.of_nat (length temp) in
  temp <> [] ->
  decode_cp1252 (removelast temp) = Ok name ->
  unpack_f (slice hdr (pos + lt + 2) (pos + lt + 6)) = Ok v ->
  units_dict = [""; "V"; "mA"; "A"; s_degC; " K"; "mV"; "pA"; "nA"; s_muA] /\
  match last_byte temp with
  | Ok c =>
      read_field hdr pos
      = if (48 <=? c) && (c <=? 57)
        then Ok (name, nth (Z.to_nat (c - 48)) units_dict "", v, lt + 5)
        else Raise ValueError
  | Raise _ => False
  end.
Proof.
  intros temp lt Hne Hname Hv. split; [reflexivity|].
  destruct (last_byte_ok temp Hne) as (c & Hc & Hr). rewrite Hc.
  unfold read_field. fold temp. rewrite Hname. cbn [res_bind]. rewrite Hc. cbn [res_bind].
  unfold int_of_chr.
  destruct ((48 <=? c) && (c <=? 57)) eqn:Ed; cbn [res_bind]; [|reflexivity].
  fold lt. rewrite Hv. cbn [res_bind]. unfold units_lookup.
  apply andb_true_iff in Ed as [E1 E2]. apply Z.leb_le in E1, E2.
  rewrite (nth_error_nth' units_dict "") by (change (length units_dict) with 10%nat; lia).
  reflexivity.
Qed.

Lemma read_field_units_witness :
  split0_first (slice_from unit5_record 1) <> [] /\
  decode_cp1252 (removelast (split0_first (slice_from unit5_record 1))) = Ok "A" /\
  unpack_f (slice unit5_record 4 8) = Ok (DFin false 8388608 (-23)) /\
  read_field unit5_record 0 = Ok ("A", nth 5 units_dict "", DFin false 8388608 (-23), 7).
Proof.
  split; [vm_compute; discriminate|]. split; [vm_compute; reflexivity|].
  split; [vm_compute; reflexivity|].
  destruct (read_field_units unit5_record 0 "A" (DFin false 8388608 (-23))) as [_ H];
    [vm_compute; discriminate|vm_compute; reflexivity|vm_compute; reflexivity|].
  vm_compute in H. exact H.
Defined.

Lemma fov_12_5 :
  py_float (split_first s_mum ("12.5" ++ s_mum)) = Some (ddiv (double_of_Z 25) (double_of_Z 2)).
Proof. vm_compute. reflexivity. Qed.

(** C5.  A well-formed FOV record (its string decodes, four float bytes
    follow) stores the calibration factor and then: "LEED" sets [LEED]
    true and [FOV] to None; "none" sets [FOV] to None and leaves [LEED];
    any other string sets [LEED] false and stores [(float(s), "µm")] for
    the part [s] before the first "µm" when [float] accepts it, leaving
    [FOV] as it was otherwise; the loop goes on in every case.  "12.5µm"
    gives 12.5. *)
Theorem handle_tag_fov (hdr : list byte) (pos : Z) (off : option Z) (md : metadict)
  (fov_str : string) (cal : double) :
  let temp := split0_first (slice_from hdr (pos + 1)) in
  let lt := Z.of_nat (length temp) in
  decode_cp1252 temp = Ok fov_str ->
  unpack_f (slice hdr (pos + lt + 2) (pos + lt + 6)) = Ok cal ->
  exists md',
    handle_tag 110 hdr pos off md = Ok (md', Some (lt + 5)) /\
    md' !! "FOV cal. factor" = Some (VFloat cal) /\
    (prefix4_eqb fov_str "LEED" = true ->
       md' !! "LEED" = Some (VBool true) /\ md' !! "FOV" = Some VNone) /\
    (prefix4_eqb fov_str "LEED" = false -> prefix4_eqb fov_str "none" = true ->
       md' !! "FOV" = Some VNone /\ md' !! "LEED" = md !! "LEED") /\
    (prefix4_eqb fov_str "LEED" = false -> prefix4_eqb fov_str "none" = false ->
       md' !! "LEED" = Some (VBool false) /\
       md' !! "FOV" = match py_float (split_first s_mum fov_str) with
                      | Some x => Some (VList [VFloat x; VStr s_mum])
                      | None => md !! "FOV"
                      end) /\
    py_float (split_first s_mum ("12.5" ++ s_mum))
    = Some (ddiv (double_of_Z 25) (double_of_Z 2)).
Proof.
  intros temp lt Hs Hc.
  unfold handle_tag. replace (memZ 110 known_tags) with false by (vm_compute; reflexivity).
  cbn [Z.eqb Pos.eqb].
  unfold fov_record. fold temp. rewrite Hs. cbn [res_bind]. fold lt. rewrite Hc. cbn [res_bind fst snd].
  eexists. split; [reflexivity|].
  destruct (prefix4_eqb fov_str "LEED") eqn:EL; destruct (prefix4_eqb fov_str "none") eqn:EN;
    destruct (py_float (split_first s_mum fov_str)) eqn:EP.
  all: repeat match goal with |- _ /\ _ => split | |- _ -> _ => intro end.
  all: try match goal with H : false = true |- _ => discriminate H
                       | H : true = false |- _ => discriminate H
                       | |- py_float _ = _ => vm_compute; reflexivity end.
  all: repeat first [rewrite lookup_insert_eq | rewrite lookup_insert_ne by discriminate].
  all: reflexivity.
Qed.

Lemma handle_tag_fov_witness :
  exists md',
    handle_tag 110 fov_12_5_record 0 None ∅ = Ok (md', Some 11) /\
    md' !! "FOV" = Some (VList [VFloat (ddiv (double_of_Z 25) (double_of_Z 2)); VStr s_mum]).
Proof.
  destruct (handle_tag_fov fov_12_5_record 0 None ∅ ("12.5" ++ s_mum)
              (DFin false 8388608 (-23))) as (md' & H1 & _ & _ & _ & H4 & _);
    [vm_compute; reflexivity | vm_compute; reflexivity |].
  exists md'. split; [rewrite H1; reflexivity|].
  destruct (H4 ltac:(vm_compute; reflexivity) ltac:(vm_compute; reflexivity)) as [_ H].
  rewrite H. vm_compute. reflexivity.
Defined.

(** C9 (code bug).  [get_levels] on the decoded 1x3 image [[0,0,30]]:
    the top bin holds 1 pixel and the one below it 0, so the hot-pixel
    branch runs; [np.argmax(np.flipud(counts))] picks the fullest bin
    (index 29 from the top), and [edges[-29]] is the edge 2.0, not the
    lower edge 29.0 of the first non-empty bin walking down from the top. *)
Theorem get_levels_hot_pixel :
  exists o edges,
    load_file hot_file = Some (Ok o) /\ data o = ArrU16 [[0; 0; 30]] /\
    np_histogram30 (as_f64 (data o)) = Ok ([2] ++ repeat 0 28 ++ [1], edges) /\
    nth 29 edges DNaN = double_of_Z 29 /\ nth 2 edges DNaN = double_of_Z 2 /\
    get_levels o None = Ok (double_of_Z 0, double_of_Z 2).
Proof.
  match eval vm_compute in (load_file hot_file) with
  | Some (Ok ?v) => pose (o := v) end.
  match eval vm_compute in (np_histogram30 (as_f64 (data o))) with
  | Ok (_, ?v) => pose (edges := v) end.
  exists o, edges.
  split; [vm_compute; reflexivity|]. split; [vm_compute; reflexivity|].
  split; [vm_compute; reflexivity|]. split; [vm_compute; reflexivity|].
  split; vm_compute; reflexivity.
Qed.

(** ** The helpers' effect on [self] *)

(** C3, counterexample.  [filterInelasticBkg] on the decoded image
    [[3,4],[1,2]] assigns [self.data = self.data / self.data.max()]: the
    object's [uint16] pixels become the [float64] values 0.75, 1.0, 0.25
    and 0.5. *)
Lemma filterInelasticBkg_mutates :
  exists o,
    load_file minimal_file = Some (Ok o) /\ data o = ArrU16 [[3; 4]; [1; 2]] /\
    match filterInelasticBkg gauss_identity o sigma_default with
    | Ok (_, o') =>
        data o' = ArrF64 [[ddiv (double_of_Z 3) (double_of_Z 4); ddiv (double_of_Z 4) (double_of_Z 4)];
                          [ddiv (double_of_Z 1) (double_of_Z 4); ddiv (double_of_Z 2) (double_of_Z 4)]]
    | Raise _ => False
    end.
Proof.
  match eval vm_compute in (load_file minimal_file) with
  | Some (Ok ?v) => pose (o := v) end.
  exists o. split; [vm_compute; reflexivity|]. split; [vm_compute; reflexivity|].
  vm_compute. reflexivity.
Qed.

(** C3 (corrected).  [normalizeOnCCD] returns [self] as it was (it
    assigns no attribute), while a successful [filterInelasticBkg] keeps
    the metadata, [noimg] and [versleemdata] of [self] but replaces its
    [data] by the [float64] array divided by its maximum. *)
Theorem helpers_effects (gaussian_filter : double -> grid -> grid) (self lCCD : leem)
  (sigma : double) (r : grid) (self' : leem) :
  filterInelasticBkg gaussian_filter self sigma = Ok (r, self') ->
  snd (normalizeOnCCD self lCCD) = self /\
  metadata self' = metadata self /\ noimg self' = noimg self /\
  versleemdata self' = versleemdata self /\
  exists mx, grid_max (as_f64 (data self)) = Ok mx /\
    data self' = ArrF64 (grid_map (fun x => ddiv x mx) (as_f64 (data self))).
Proof.
  intro H. split; [reflexivity|].
  unfold filterInelasticBkg in H.
  destruct (grid_max (as_f64 (data self))) as [mx|ex] eqn:Em; cbn [res_bind] in H; [|discriminate].
  destruct (zip_grid _ _ _) as [z|ex]; cbn [res_bind] in H; [|discriminate].
  injection H as _ <-. split; [reflexivity|]. split; [reflexivity|]. split; [reflexivity|]. exists mx. split; [reflexivity | reflexivity].
Qed.

(** [filterInelasticBkg] on the decoded image [[3,4],[1,2]]. *)
Lemma helpers_effects_witness :
  exists o r o',
    load_file minimal_file = Some (Ok o) /\
    filterInelasticBkg gauss_identity o sigma_default = Ok (r, o') /\
    metadata o' = metadata o /\
    data o' = ArrF64 (grid_map (fun x => ddiv x (double_of_Z 4)) (as_f64 (data o))).
Proof.
  match eval vm_compute in (load_file minimal_file) with
  | Some (Ok ?v) => pose (o := v) end.
  match eval vm_compute in (filterInelasticBkg gauss_identity o sigma_default) with
  | Ok (?v1, ?v2) => pose (r := v1); pose (o' := v2) end.
  assert (Hf : filterInelasticBkg gauss_identity o sigma_default = Ok (r, o'))
    by (vm_compute; reflexivity).
  exists o, r, o'. split; [vm_compute; reflexivity|]. split; [exact Hf|].
  destruct (helpers_effects gauss_identity o o sigma_default r o' Hf)
    as (_ & Hm & _ & _ & mx & Hmx & Hd).
  split; [exact Hm|]. rewrite Hd.
  replace mx with (double_of_Z 4) by (vm_compute in Hmx; injection Hmx as <-; vm_compute; reflexivity).
  reflexivity.
Defined.

(** ** The exponent of a correctly rounded quotient *)

Lemma le_scaled_shift q p j c :
  0 <= c -> 0 <= j + c ->
  (le_scaled q p j = true <-> q * 2 ^ (j + c) <= p * 2 ^ c).
Proof.
  intros Hc Hjc. unfold le_scaled.
  destruct (0 <=? j) eqn:Ej; rewrite Z.leb_le.
  - apply Z.leb_le in Ej. rewrite Z.pow_add_r by lia.
    pose proof (Z.pow_pos_nonneg 2 c ltac:(lia) Hc).
    rewrite Z.mul_assoc. apply Z.mul_le_mono_pos_r. lia.
  - apply Z.leb_gt in Ej. replace c with ((- j) + (j + c)) at 2 by lia.
    rewrite (Z.pow_add_r 2 (- j) (j + c)) by lia.
    pose proof (Z.pow_pos_nonneg 2 (j + c) ltac:(lia) Hjc).
    rewrite Z.mul_assoc. apply Z.mul_le_mono_pos_r. lia.
Qed.

Lemma le_scaled_false_shift q p j c :
  0 <= c -> 0 <= j + c ->
  (le_scaled q p j = false <-> p * 2 ^ c < q * 2 ^ (j + c)).
Proof.
  intros Hc Hjc. pose proof (le_scaled_shift q p j c Hc Hjc) as H.
  destruct (le_scaled q p j); split; intro X.
  - discriminate.
  - exfalso. apply proj1 in H. specialize (H eq_refl). lia.
  - destruct (Z.lt_ge_cases (p * 2 ^ c) (q * 2 ^ (j + c))) as [L|L]; [exact L|].
    apply H in L. discriminate.
  - reflexivity.
Qed.

Lemma exp_of_spec p q :
  0 < p -> 0 < q ->
  le_scaled q p (exp_of p q) = true /\ le_scaled q p (exp_of p q + 1) = false.
Proof.
  intros Hp Hq.
  pose proof (Z.log2_spec p Hp) as [Lp1 Lp2].
  pose proof (Z.log2_spec q Hq) as [Lq1 Lq2].
  pose proof (Z.log2_nonneg p) as Np. pose proof (Z.log2_nonneg q) as Nq.
  set (lp := Z.log2 p) in *. set (lq := Z.log2 q) in *.
  rewrite Z.pow_succ_r in Lp2, Lq2 by lia.
  set (X := 2 ^ lp) in *. set (Y := 2 ^ lq) in *.
  assert (A : le_scaled q p (lp - lq - 1) = true).
  { apply (le_scaled_shift q p _ (lq + 1)); [lia|lia|].
    replace (lp - lq - 1 + (lq + 1)) with lp by lia.
    rewrite Z.pow_add_r by lia. fold Y. change (2 ^ 1) with 2. fold X. nia. }
  assert (B : le_scaled q p (lp - lq + 1) = false).
  { apply (le_scaled_false_shift q p _ (lq + 1)); [lia|lia|].
    replace (lp - lq + 1 + (lq + 1)) with (Z.succ (Z.succ lp)) by lia.
    rewrite (Z.pow_add_r 2 lq 1) by lia. change (2 ^ 1) with 2.
    rewrite !Z.pow_succ_r by lia. fold X. fold Y. nia. }
  unfold exp_of. fold lp lq.
  destruct (le_scaled q p (lp - lq)) eqn:E.
  - split; [exact E|exact B].
  - split; [exact A|]. replace (lp - lq - 1 + 1) with (lp - lq) by lia. exact E.
Qed.

(** Uniqueness: the exponent is determined by the two comparisons. *)
Lemma exp_of_unique p q k :
  0 < p -> 0 < q ->
  le_scaled q p k = true -> le_scaled q p (k + 1) = false -> exp_of p q = k.
Proof.
  intros Hp Hq H1 H2. destruct (exp_of_spec p q Hp Hq) as [E1 E2].
  set (k' := exp_of p q) in *.
  set (c := Z.abs k + Z.abs k' + 2).
  assert (Hc : 0 <= c) by lia.
  apply (le_scaled_shift q p k c) in H1; [|lia|lia].
  apply (le_scaled_false_shift q p (k + 1) c) in H2; [|lia|lia].
  apply (le_scaled_shift q p k' c) in E1; [|lia|lia].
  apply (le_scaled_false_shift q p (k' + 1) c) in E2; [|lia|lia].
  destruct (Z.lt_total k k') as [L|[L|L]]; [exfalso| exact (eq_sym L) | exfalso].
  - assert (2 ^ (k + 1 + c) <= 2 ^ (k' + c)) by (apply Z.pow_le_mono_r; lia).
    pose proof (Z.pow_pos_nonneg 2 (k + 1 + c) ltac:(lia) ltac:(lia)). nia.
  - assert (2 ^ (k' + 1 + c) <= 2 ^ (k + c)) by (apply Z.pow_le_mono_r; lia).
    pose proof (Z.pow_pos_nonneg 2 (k' + 1 + c) ltac:(lia) ltac:(lia)). nia.
Qed.

Lemma le_scaled_mul q p j t :
  0 < t -> le_scaled (q * t) (p * t) j = le_scaled q p j.
Proof.
  intro Ht. unfold le_scaled. destruct (0 <=? j).
  - apply eq_true_iff_eq. rewrite !Z.leb_le. split; nia.
  - apply eq_true_iff_eq. rewrite !Z.leb_le. split; nia.
Qed.

Lemma exp_of_int S q : 0 < S -> 0 < q -> exp_of (S * q) q = Z.log2 S.
Proof.
  intros HS Hq. pose proof (Z.log2_spec S HS) as [L1 L2].
  pose proof (Z.log2_nonneg S).
  apply exp_of_unique; [nia|lia| |].
  - replace q with (1 * q) at 1 by lia. rewrite le_scaled_mul by lia.
    unfold le_scaled. rewrite (proj2 (Z.leb_le 0 _)) by lia. apply Z.leb_le. lia.
  - replace q with (1 * q) at 1 by lia. rewrite le_scaled_mul by lia.
    unfold le_scaled. rewrite (proj2 (Z.leb_le 0 _)) by lia. apply Z.leb_gt. lia.
Qed.

Lemma rhe_exact a b : 0 < b -> round_half_even (a * b) b = a.
Proof.
  intro Hb. unfold round_half_even. rewrite Z.div_mul, Z.mod_mul by lia.
  replace (2 * 0) with 0 by lia. destruct b; try lia. reflexivity.
Qed.

(** An integer [S] with [0 < S < 2^53] divided by [q] after scaling by
    [q] is exact: its double is [S * 2^(-E) * 2^E] with [E <= 0]. *)
Lemma round_pos_int s S q :
  0 < S < 2 ^ 53 -> 0 < q ->
  exists E, E <= 0 /\ round_pos s (S * q) q = DFin s (S * 2 ^ (- E)) E.
Proof.
  intros HS Hq. pose proof (Z.log2_spec S ltac:(lia)) as [L1 L2].
  pose proof (Z.log2_nonneg S).
  assert (Hl : Z.log2 S <= 52).
  { destruct (Z.le_gt_cases (Z.log2 S) 52) as [|G]; [lia|].
    assert (2 ^ 53 <= 2 ^ Z.log2 S) by (apply Z.pow_le_mono_r; lia). lia. }
  exists (Z.log2 S - 52). split; [lia|].
  unfold round_pos. rewrite exp_of_int by lia.
  rewrite Z.max_l by lia.
  destruct (Z.leb_spec 0 (Z.log2 S - 52)) as [E|E].
  - assert (Z.log2 S - 52 = 0) as -> by lia. cbn [Z.pow Z.pow_pos Pos.iter].
    rewrite Z.mul_1_r, rhe_exact by lia.
    destruct (Z.eqb_spec S (2 ^ 53)); [lia|]. cbn. rewrite Z.mul_1_r. reflexivity.
  - replace (S * q * 2 ^ (- (Z.log2 S - 52))) with (S * 2 ^ (- (Z.log2 S - 52)) * q) by ring.
    rewrite rhe_exact by lia.
    assert (S * 2 ^ (- (Z.log2 S - 52)) < 2 ^ 53).
    { rewrite Z.pow_succ_r in L2 by lia.
      replace (2 ^ 53) with (2 ^ Z.log2 S * 2 ^ (- (Z.log2 S - 52)) * 2)
        by (rewrite <- Z.pow_add_r by lia; replace (Z.log2 S + - (Z.log2 S - 52)) with 52 by lia; reflexivity).
      pose proof (Z.pow_pos_nonneg 2 (- (Z.log2 S - 52)) ltac:(lia) ltac:(lia)). nia. }
    destruct (Z.eqb_spec (S * 2 ^ (- (Z.log2 S - 52))) (2 ^ 53)); [lia|].
    destruct (Z.ltb_spec 971 (Z.log2 S - 52)); [lia|]. reflexivity.
Qed.

(** ** Timestamps that are whole seconds *)

Lemma deqb_zero_dzero E : deqb (DFin false 0 E) dzero = true.
Proof. unfold deqb, dfrac, dzero. destruct (0 <=? E); cbn; apply Z.eqb_eq; ring. Qed.

Lemma mk_timedelta_small us : 0 <= us < 10 ^ 18 -> mk_timedelta us = Ok (mk_td us).
Proof.
  intro H. unfold mk_timedelta.
  assert (0 <= us / us_per_day < 999999999).
  { unfold us_per_day. split; [apply Z.div_pos; lia|].
    apply Z.div_lt_upper_bound; cbn; lia. }
  rewrite Z.abs_eq by lia. destruct (Z.leb_spec (us / us_per_day) 999999999); [reflexivity|lia].
Qed.

Lemma timedelta_seconds_int S E :
  E <= 0 -> 0 <= S -> S * 10 ^ 6 < 10 ^ 18 ->
  timedelta_seconds (DFin false (S * 2 ^ (- E)) E) = Ok (mk_td (S * 10 ^ 6)).
Proof.
  intros HE HS Hb. unfold timedelta_seconds, dmodf.
  destruct (Z.leb_spec 0 E).
  - assert (E = 0) as -> by lia. cbn [py_long_from_double res_bind].
    change (0 <=? 0) with true. cbv iota.
    rewrite Z.opp_0, Z.pow_0_r, !Z.mul_1_r.
    rewrite deqb_zero_dzero. apply mk_timedelta_small. lia.
  - pose proof (Z.pow_pos_nonneg 2 (- E) ltac:(lia) ltac:(lia)).
    rewrite Z.mod_mul, Z.div_mul by lia.
    cbn [py_long_from_double res_bind]. change (0 <=? 0) with true. cbv iota.
    rewrite Z.pow_0_r, Z.mul_1_r.
    rewrite deqb_zero_dzero. apply mk_timedelta_small. lia.
Qed.

(** C7 (corrected).  A tick count that is a whole number [S] of seconds
    ([S * 10^7] ticks) within the range of [datetime] converts exactly to
    the epoch 1601-01-01 plus [S] seconds: [S * 10^7 / 10^7] is the
    double [S] (exact below [2^53]), [modf] leaves no fraction, and
    [timedelta(seconds=S)] is [S * 10^6] microseconds. *)
Lemma convert_ad_timestamp_whole_seconds S :
  0 <= S -> dt_us ad_epoch + S * 10 ^ 6 < dt_us_limit ->
  convert_ad_timestamp (S * 10 ^ 7) = Ok (mk_dt (dt_us ad_epoch + S * 10 ^ 6)).
Proof.
  intros HS Hlim.
  assert (Hep : 0 <= dt_us ad_epoch) by (vm_compute; discriminate).
  assert (Hl : dt_us_limit < 10 ^ 18) by (vm_compute; reflexivity).
  unfold convert_ad_timestamp, py_int_truediv. fold ad_epoch.
  replace (10 ^ 7) with 10000000 by reflexivity.
  change (10000000 =? 0) with false. change (10000000 <? 0) with false. cbv iota.
  destruct (Z.eqb_spec (S * 10000000) 0) as [Z0|Z0].
  - assert (S = 0) as -> by lia. vm_compute. reflexivity.
  - rewrite (proj2 (Z.ltb_ge (S * 10000000) 0)) by lia. cbn [xorb].
    rewrite Z.abs_eq by lia. change (Z.abs 10000000) with 10000000.
    destruct (round_pos_int false S 10000000 ltac:(lia) ltac:(lia)) as [E [HE Hr]].
    rewrite Hr. cbn [res_bind].
    rewrite timedelta_seconds_int by lia. cbn [res_bind].
    unfold dt_add. cbn [td_us].
    destruct (Z.leb_spec 0 (dt_us ad_epoch + S * 10 ^ 6)); [|lia].
    destruct (Z.ltb_spec (dt_us ad_epoch + S * 10 ^ 6) dt_us_limit); [reflexivity|lia].
Qed.

(** C7, counterexample.  130960800000000010 ticks are
    2016-01-01T00:00:00.000001, but [timestamp / 10^7] rounds to the
    nearest double and [timedelta] rounds its microseconds again: the
    conversion gives 2016-01-01T00:00:00.000002. *)
Lemma convert_ad_timestamp_off_by_one_us :
  convert_ad_timestamp 130960800000000010 = Ok (mk_datetime 2016 1 1 0 0 0 2) /\
  dt_us ad_epoch + 130960800000000010 / 10 = dt_us (mk_datetime 2016 1 1 0 0 0 1).
Proof. split; vm_compute; reflexivity. Qed.

(** The ticks of 2016-01-01T00:00:00 decode to that date and time. *)
Lemma convert_ad_timestamp_whole_seconds_witness :
  convert_ad_timestamp 130960800000000000 = Ok (mk_datetime 2016 1 1 0 0 0 0).
Proof.
  replace 130960800000000000 with (13096080000 * 10 ^ 7) by reflexivity.
  rewrite (convert_ad_timestamp_whole_seconds 13096080000);
    [vm_compute; reflexivity | lia | vm_compute; reflexivity].
Defined.

(** ** Float lemmas for normalization *)

Lemma dfrac_pos_spec m e :
  dfrac false m e = (m * 2 ^ Z.max e 0, 2 ^ Z.max (- e) 0).
Proof.
  unfold dfrac. destruct (Z.leb_spec 0 e).
  - rewrite Z.max_l, Z.max_r by lia. f_equal; ring.
  - rewrite Z.max_r, Z.max_l by lia. cbn. f_equal; ring.
Qed.

Lemma two_pow_max_pos z : 0 < 2 ^ Z.max z 0.
Proof. apply Z.pow_pos_nonneg; lia. Qed.

Ltac frac_of x :=
  let m := fresh "m" in let e := fresh "e" in let Hm := fresh "Hm" in
  destruct x as (m & e & -> & Hm);
  pose proof (two_pow_max_pos e); pose proof (two_pow_max_pos (- e)).

Lemma dle_iff m1 e1 m2 e2 :
  dle (DFin false m1 e1) (DFin false m2 e2) = true <->
  m1 * 2 ^ Z.max e1 0 * 2 ^ Z.max (- e2) 0 <= m2 * 2 ^ Z.max e2 0 * 2 ^ Z.max (- e1) 0.
Proof.
  unfold dle, dlt, deqb. rewrite !dfrac_pos_spec. rewrite orb_true_iff, Z.ltb_lt, Z.eqb_eq. lia.
Qed.

Lemma dlt_iff m1 e1 m2 e2 :
  dlt (DFin false m1 e1) (DFin false m2 e2) = true <->
  m1 * 2 ^ Z.max e1 0 * 2 ^ Z.max (- e2) 0 < m2 * 2 ^ Z.max e2 0 * 2 ^ Z.max (- e1) 0.
Proof. unfold dlt. rewrite !dfrac_pos_spec. apply Z.ltb_lt. Qed.

Lemma dle_refl x : fin_nn x -> dle x x = true.
Proof. intro H. frac_of H. apply dle_iff. lia. Qed.

Lemma dle_trans x y z : fin_nn x -> fin_nn y -> fin_nn z ->
  dle x y = true -> dle y z = true -> dle x z = true.
Proof.
  intros Hx Hy Hz. frac_of Hx. frac_of Hy. frac_of Hz. rewrite !dle_iff. intros A B.
  apply (Z.mul_le_mono_pos_r _ _ (2 ^ Z.max e0 0 * 2 ^ Z.max (- e0) 0)); [nia|].
  destruct (Z.eq_dec m0 0) as [->|N].
  - assert (m = 0) as -> by nia. nia.
  - nia.
Qed.

Lemma dlt_false_dle x y : fin_nn x -> fin_nn y -> dlt x y = false -> dle y x = true.
Proof.
  intros Hx Hy. frac_of Hx. frac_of Hy. intro L. apply dle_iff.
  destruct (Z.le_gt_cases (m0 * 2 ^ Z.max e0 0 * 2 ^ Z.max (- e) 0)
                          (m * 2 ^ Z.max e 0 * 2 ^ Z.max (- e0) 0)) as [G|G]; [exact G|].
  apply dlt_iff in G. congruence.
Qed.

Lemma np_maximum_fin x y : fin_nn x -> fin_nn y ->
  (np_maximum x y = x \/ np_maximum x y = y) /\
  dle x (np_maximum x y) = true /\ dle y (np_maximum x y) = true.
Proof.
  intros Hx Hy. unfold np_maximum.
  assert (disnan x = false) as -> by (destruct Hx as (? & ? & -> & _); reflexivity).
  assert (disnan y = false) as -> by (destruct Hy as (? & ? & -> & _); reflexivity).
  cbn [orb]. destruct (dlt x y) eqn:L.
  - split; [right; reflexivity|]. split; [|apply dle_refl; exact Hy].
    destruct Hx as (? & ? & -> & _). destruct Hy as (? & ? & -> & _).
    unfold dle. rewrite L. reflexivity.
  - split; [left; reflexivity|]. split; [apply dle_refl; exact Hx|].
    apply dlt_false_dle; assumption.
Qed.

Lemma fold_np_maximum l x :
  Forall fin_nn (x :: l) ->
  In (fold_left np_maximum l x) (x :: l) /\
  Forall (fun y => dle y (fold_left np_maximum l x) = true) (x :: l).
Proof.
  revert x. induction l as [|y l IH]; intros x Hall.
  - cbn. split; [left; reflexivity|]. constructor; [|constructor].
    apply dle_refl. inversion Hall; assumption.
  - inversion Hall as [|? ? Hx Hl]; subst. inversion Hl as [|? ? Hy Hl']; subst.
    cbn [fold_left].
    destruct (np_maximum_fin x y Hx Hy) as (Hxy & Lx & Ly).
    assert (Hm : fin_nn (np_maximum x y)) by (destruct Hxy as [-> | ->]; assumption).
    assert (Hc : Forall fin_nn (np_maximum x y :: l)) by (constructor; assumption).
    destruct (IH (np_maximum x y) Hc) as [Hin Hle].
    inversion Hle as [|? ? Hmr Hlr]; subst.
    split.
    + destruct Hin as [<- | Hin]; [destruct Hxy as [-> | ->]; cbn; tauto | cbn; tauto].
    + assert (Hr : fin_nn (fold_left np_maximum l (np_maximum x y))).
      { destruct Hin as [<- | Hin]; [exact Hm|]. rewrite List.Forall_forall in Hl'. apply Hl'. exact Hin. }
      constructor; [eapply dle_trans; [exact Hx|exact Hm|exact Hr|exact Lx|exact Hmr]|].
      constructor; [eapply dle_trans; [exact Hy|exact Hm|exact Hr|exact Ly|exact Hmr]|].
      exact Hlr.
Qed.

Lemma rhe_ge_div num den : 0 < den -> num / den <= round_half_even num den.
Proof.
  intro Hd. unfold round_half_even.
  destruct (Z.compare (2 * (num mod den)) den); [destruct (Z.even _)|..]; lia.
Qed.

Lemma rhe_le num den C : 0 < den -> num <= C * den -> round_half_even num den <= C.
Proof.
  intros Hd Hn. unfold round_half_even.
  pose proof (Z.div_mod num den ltac:(lia)) as Ediv.
  pose proof (Z.mod_pos_bound num den Hd) as Hr.
  set (m0 := num / den) in *. set (r := num mod den) in *.
  clearbody m0 r.
  assert (m0 <= C) by nia.
  destruct (Z.eq_dec r 0) as [R|R].
  - rewrite R. change (2 * 0) with 0.
    destruct den; try lia. cbn. lia.
  - assert (m0 < C) by nia.
    destruct (Z.compare (2 * r) den); [destruct (Z.even m0)|..]; lia.
Qed.

Lemma one_eq : double_of_Z 1 = DFin false (2 ^ 52) (-52).
Proof. vm_compute. reflexivity. Qed.

Lemma dle_one m e : e <= 0 -> 0 <= m <= 2 ^ (- e) -> dle (DFin false m e) (double_of_Z 1) = true.
Proof.
  intros He Hm. rewrite one_eq. apply dle_iff.
  rewrite (Z.max_r e 0), (Z.max_l (- e) 0) by lia.
  change (Z.max (-52) 0) with 0. rewrite Z.max_l by lia.
  rewrite Z.pow_0_r. pose proof (Z.pow_pos_nonneg 2 52 ltac:(lia) ltac:(lia)). nia.
Qed.

Lemma round_pos_le_one p q : 0 < p <= q -> dle (round_pos false p q) (double_of_Z 1) = true.
Proof.
  intros Hpq. destruct (exp_of_spec p q ltac:(lia) ltac:(lia)) as [S1 _].
  unfold round_pos. set (k := exp_of p q) in *.
  assert (Hk : k <= 0).
  { destruct (Z.le_gt_cases k 0) as [|G]; [lia|].
    apply (le_scaled_shift q p k 0) in S1; [|lia|lia].
    rewrite Z.add_0_r, Z.pow_0_r in S1.
    assert (2 ^ 1 <= 2 ^ k) by (apply Z.pow_le_mono_r; lia). cbn in H. nia. }
  set (e := Z.max (k - 52) (-1074)).
  assert (He : e <= -52) by lia.
  pose proof (Z.pow_pos_nonneg 2 (- e) ltac:(lia) ltac:(lia)) as Hpe.
  destruct (Z.leb_spec 0 e) as [|_]; [lia|].
  assert (Hm : round_half_even (p * 2 ^ (- e)) q <= 2 ^ (- e)) by (apply rhe_le; nia).
  assert (Hm0 : 0 <= round_half_even (p * 2 ^ (- e)) q).
  { pose proof (rhe_ge_div (p * 2 ^ (- e)) q ltac:(lia)).
    pose proof (Z.div_pos (p * 2 ^ (- e)) q ltac:(nia) ltac:(lia)). lia. }
  set (m := round_half_even (p * 2 ^ (- e)) q) in *.
  destruct (Z.eqb_spec m (2 ^ 53)) as [M|M].
  - destruct (Z.ltb_spec 971 (e + 1)); [lia|].
    apply dle_one; [lia|].
    replace (- e) with (1 + - (e + 1)) in Hm by lia.
    rewrite Z.pow_add_r in Hm by lia.
    split; [lia|].
    replace (2 ^ 53) with (2 * 2 ^ 52) in M by reflexivity. lia.
  - destruct (Z.ltb_spec 971 e); [lia|]. apply dle_one; lia.
Qed.

Lemma ddiv_le_one x y :
  fin_nn x -> (exists m e, y = DFin false m e /\ 0 < m) ->
  dle x y = true -> dle (ddiv x y) (double_of_Z 1) = true.
Proof.
  intros Hx (m2 & e2 & -> & Hm2). frac_of Hx. intro L. apply dle_iff in L.
  pose proof (two_pow_max_pos e2). pose proof (two_pow_max_pos (- e2)).
  unfold ddiv. destruct (Z.eqb_spec m2 0); [lia|].
  destruct (Z.eqb_spec m 0) as [->|N].
  - apply dle_one; lia.
  - rewrite !dfrac_pos_spec. cbv [xorb].
    apply round_pos_le_one. nia.
Qed.

Lemma round_pos_same p : 0 < p -> round_pos false p p = DFin false (2 ^ 52) (-52).
Proof.
  intro Hp. unfold round_pos.
  rewrite (exp_of_unique p p 0) by (unfold le_scaled; cbn; apply Z.leb_le || apply Z.leb_gt; lia).
  change (Z.max (0 - 52) (-1074)) with (-52). change (0 <=? -52) with false. cbv iota.
  change (- -52) with 52. rewrite Z.mul_comm, rhe_exact by lia.
  reflexivity.
Qed.

Lemma ddiv_self_one y :
  (exists m e, y = DFin false m e /\ 0 < m) -> deqb (ddiv y y) (double_of_Z 1) = true.
Proof.
  intros (m & e & -> & Hm).
  pose proof (two_pow_max_pos e). pose proof (two_pow_max_pos (- e)).
  unfold ddiv. destruct (Z.eqb_spec m 0); [lia|].
  rewrite !dfrac_pos_spec. cbv [xorb].
  rewrite (Z.mul_comm (2 ^ Z.max (- e) 0)), round_pos_same by nia.
  vm_compute. reflexivity.
Qed.

Lemma double_of_Z_int n :
  0 < n < 2 ^ 53 -> exists E, E <= 0 /\ double_of_Z n = DFin false (n * 2 ^ (- E)) E.
Proof.
  intro Hn. unfold double_of_Z, round_q.
  destruct (Z.eqb_spec n 0); [lia|]. destruct (Z.ltb_spec n 0); [lia|].
  replace (round_pos false n 1) with (round_pos false (n * 1) 1) by (rewrite Z.mul_1_r; reflexivity).
  apply round_pos_int; lia.
Qed.

Lemma round_pos_ratio a b T :
  1 <= a <= 65535 -> 1 <= b <= 65535 -> 0 < T -> pos_nn (round_pos false (a * T) (b * T)).
Proof.
  intros Ha Hb HT.
  destruct (exp_of_spec (a * T) (b * T) ltac:(nia) ltac:(nia)) as [S1 S2].
  rewrite le_scaled_mul in S1, S2 by lia.
  unfold round_pos. set (k := exp_of (a * T) (b * T)) in *.
  assert (Hk1 : k <= 16).
  { destruct (Z.le_gt_cases k 16) as [|G]; [lia|].
    apply (le_scaled_shift b a k 0) in S1; [|lia|lia].
    rewrite Z.add_0_r, Z.pow_0_r in S1.
    assert (2 ^ 17 <= 2 ^ k) by (apply Z.pow_le_mono_r; lia). cbn in H. nia. }
  assert (Hk2 : -17 <= k).
  { destruct (Z.le_gt_cases (-17) k) as [|G]; [lia|].
    apply (le_scaled_false_shift b a (k + 1) (- (k + 1))) in S2; [|lia|lia].
    replace (k + 1 + - (k + 1)) with 0 in S2 by lia. rewrite Z.pow_0_r in S2.
    assert (2 ^ 17 <= 2 ^ (- (k + 1))) by (apply Z.pow_le_mono_r; lia). cbn in H. nia. }
  rewrite Z.max_l by lia.
  destruct (Z.leb_spec 0 (k - 52)) as [|_]; [lia|].
  apply (le_scaled_shift b a k (52 - k)) in S1; [|lia|lia].
  replace (k + (52 - k)) with 52 in S1 by lia.
  replace (- (k - 52)) with (52 - k) by lia.
  pose proof (Z.pow_pos_nonneg 2 (52 - k) ltac:(lia) ltac:(lia)).
  assert (Hd : 1 <= a * T * 2 ^ (52 - k) / (b * T)).
  { apply Z.div_le_lower_bound; [nia|].
    pose proof (Z.pow_pos_nonneg 2 52 ltac:(lia) ltac:(lia)). nia. }
  pose proof (rhe_ge_div (a * T * 2 ^ (52 - k)) (b * T) ltac:(nia)).
  set (m := round_half_even (a * T * 2 ^ (52 - k)) (b * T)) in *.
  destruct (Z.eqb_spec m (2 ^ 53)).
  - destruct (Z.ltb_spec 971 (k - 52 + 1)); [lia|]. exists (2 ^ 52), (k - 52 + 1). split; [reflexivity|lia].
  - destruct (Z.ltb_spec 971 (k - 52)); [lia|]. exists m, (k - 52). split; [reflexivity|lia].
Qed.

Lemma pixel_quotient a b :
  0 <= a <= 65535 -> 1 <= b <= 65535 ->
  fin_nn (ddiv (double_of_Z a) (double_of_Z b)) /\
  (0 < a -> pos_nn (ddiv (double_of_Z a) (double_of_Z b))).
Proof.
  intros Ha Hb.
  destruct (double_of_Z_int b ltac:(lia)) as (Eb & HEb & ->).
  pose proof (Z.pow_pos_nonneg 2 (- Eb) ltac:(lia) ltac:(lia)).
  destruct (Z.eq_dec a 0) as [->|Na].
  - change (double_of_Z 0) with (DFin false 0 0). unfold ddiv.
    destruct (Z.eqb_spec (b * 2 ^ (- Eb)) 0); [lia|]. cbn.
    split; [exists 0, 0; split; [reflexivity|lia]|lia].
  - destruct (double_of_Z_int a ltac:(lia)) as (Ea & HEa & ->).
    pose proof (Z.pow_pos_nonneg 2 (- Ea) ltac:(lia) ltac:(lia)).
    unfold ddiv. destruct (Z.eqb_spec (b * 2 ^ (- Eb)) 0); [lia|].
    destruct (Z.eqb_spec (a * 2 ^ (- Ea)) 0); [lia|].
    rewrite !dfrac_pos_spec. cbv [xorb].
    rewrite (Z.max_r Ea 0), (Z.max_l (- Ea) 0), (Z.max_r Eb 0), (Z.max_l (- Eb) 0) by lia.
    rewrite Z.pow_0_r.
    replace (a * 2 ^ (- Ea) * 1 * 2 ^ (- Eb)) with (a * (2 ^ (- Ea) * 2 ^ (- Eb))) by ring.
    replace (2 ^ (- Ea) * (b * 2 ^ (- Eb) * 1)) with (b * (2 ^ (- Ea) * 2 ^ (- Eb))) by ring.
    assert (P : pos_nn (round_pos false (a * (2 ^ (- Ea) * 2 ^ (- Eb))) (b * (2 ^ (- Ea) * 2 ^ (- Eb)))))
      by (apply round_pos_ratio; nia).
    split; [|intros; exact P].
    destruct P as (m & e & -> & Hm). exists m, e. split; [reflexivity|lia].
Qed.

Lemma row_fin ra rb :
  forallb in_u16 ra = true -> forallb in_u16_pos rb = true ->
  Forall fin_nn (quot_row (map double_of_Z ra) (map double_of_Z rb)).
Proof.
  revert rb. induction ra as [|x ra IH]; intros [|y rb] Ha Hb; cbn; try (constructor; fail).
  cbn in Ha, Hb. apply andb_true_iff in Ha as [Hx Ha], Hb as [Hy Hb].
  unfold in_u16, in_u16_pos in *. rewrite andb_true_iff, !Z.leb_le in Hx, Hy.
  constructor; [apply pixel_quotient; lia|]. apply IH; assumption.
Qed.

Lemma row_pos ra rb :
  length ra = length rb ->
  forallb in_u16 ra = true -> forallb in_u16_pos rb = true ->
  existsb (fun v => 0 <? v) ra = true ->
  Exists pos_nn (quot_row (map double_of_Z ra) (map double_of_Z rb)).
Proof.
  revert rb. induction ra as [|x ra IH]; intros [|y rb] Hl Ha Hb He; cbn in *; try discriminate.
  apply andb_true_iff in Ha as [Hx Ha], Hb as [Hy Hb].
  unfold in_u16, in_u16_pos in *. rewrite andb_true_iff, !Z.leb_le in Hx, Hy.
  apply orb_true_iff in He as [He|He].
  - apply Z.ltb_lt in He. apply Exists_cons_hd. apply pixel_quotient; lia.
  - apply Exists_cons_tl. apply IH; [lia|assumption|assumption|assumption].
Qed.

Lemma grid_fin a b :
  forallb (forallb in_u16) a = true -> forallb (forallb in_u16_pos) b = true ->
  Forall fin_nn (concat (map (fun p => quot_row (fst p) (snd p))
                   (combine (map (map double_of_Z) a) (map (map double_of_Z) b)))).
Proof.
  revert b. induction a as [|ra a IH]; intros [|rb b] Ha Hb; cbn; try (constructor; fail).
  cbn in Ha, Hb. apply andb_true_iff in Ha as [Hr Ha], Hb as [Hs Hb].
  apply List.Forall_app. split; [apply row_fin; assumption|]. apply IH; assumption.
Qed.

Lemma grid_pos a b w :
  length a = length b ->
  forallb (fun r => Nat.eqb (length r) w) a = true ->
  forallb (fun r => Nat.eqb (length r) w) b = true ->
  forallb (forallb in_u16) a = true -> forallb (forallb in_u16_pos) b = true ->
  existsb (existsb (fun v => 0 <? v)) a = true ->
  Exists pos_nn (concat (map (fun p => quot_row (fst p) (snd p))
                   (combine (map (map double_of_Z) a) (map (map double_of_Z) b)))).
Proof.
  revert b. induction a as [|ra a IH]; intros [|rb b] Hl Wa Wb Ha Hb He; cbn in *; try discriminate.
  apply andb_true_iff in Ha as [Hr Ha], Hb as [Hs Hb], Wa as [Wr Wa], Wb as [Ws Wb].
  apply Nat.eqb_eq in Wr, Ws.
  apply List.Exists_app. apply orb_true_iff in He as [He|He].
  - left. apply row_pos; [lia|assumption..].
  - right. apply IH; [lia|assumption..].
Qed.

Lemma dle_pos y z : pos_nn y -> fin_nn z -> dle y z = true -> pos_nn z.
Proof.
  intros (m & e & -> & Hm) Hz. frac_of Hz. rewrite dle_iff. intro L.
  pose proof (two_pow_max_pos e). pose proof (two_pow_max_pos (- e)).
  exists m0, e0. split; [reflexivity|].
  destruct (Z.eq_dec m0 0) as [->|]; [nia|lia].
Qed.

Lemma fin_of_pos x : pos_nn x -> fin_nn x.
Proof. intros (m & e & -> & Hm). exists m, e. split; [reflexivity|lia]. Qed.

Lemma grid_max_props q :
  Forall fin_nn (concat q) -> Exists pos_nn (concat q) ->
  exists mx, grid_max q = Ok mx /\ pos_nn mx /\ In mx (concat q) /\
    Forall (fun y => dle y mx = true) (concat q).
Proof.
  intros Hf He. unfold grid_max.
  destruct (concat q) as [|x rest] eqn:Ec; [inversion He|].
  destruct (fold_np_maximum rest x Hf) as [Hin Hle].
  exists (fold_left np_maximum rest x). split; [reflexivity|].
  split; [|split; assumption].
  apply List.Exists_exists in He as (y & Hy & Py).
  apply (dle_pos y); [exact Py| |].
  - rewrite List.Forall_forall in Hf. apply Hf. exact Hin.
  - rewrite List.Forall_forall in Hle. apply Hle. exact Hy.
Qed.

Lemma normalized_bounds q mx :
  Forall fin_nn (concat q) -> pos_nn mx -> In mx (concat q) ->
  Forall (fun y => dle y mx = true) (concat q) ->
  Forall (Forall (fun x => dle x (double_of_Z 1) = true)) (grid_map (fun x => ddiv x mx) q) /\
  Exists (Exists (fun x => deqb x (double_of_Z 1) = true)) (grid_map (fun x => ddiv x mx) q).
Proof.
  intros Hf Hp Hin Hle. unfold grid_map. split.
  - apply List.Forall_forall. intros r' Hr'. apply in_map_iff in Hr' as (r & <- & Hr).
    apply List.Forall_forall. intros z Hz. apply in_map_iff in Hz as (y & <- & Hy).
    assert (Hyc : In y (concat q)) by (apply in_concat; eauto).
    rewrite List.Forall_forall in Hf, Hle.
    apply ddiv_le_one; [apply Hf; exact Hyc|exact Hp|apply Hle; exact Hyc].
  - apply in_concat in Hin as (r & Hr & Hmr).
    apply List.Exists_exists. exists (map (fun x => ddiv x mx) r). split; [apply in_map; exact Hr|].
    apply List.Exists_exists. exists (ddiv mx mx). split; [apply (in_map (fun x => ddiv x mx)); exact Hmr|].
    apply ddiv_self_one. exact Hp.
Qed.

Lemma zero_quotient b : 1 <= b <= 65535 -> ddiv (double_of_Z 0) (double_of_Z b) = dzero.
Proof.
  intro Hb. destruct (double_of_Z_int b ltac:(lia)) as (Eb & HEb & ->).
  pose proof (Z.pow_pos_nonneg 2 (- Eb) ltac:(lia) ltac:(lia)).
  change (double_of_Z 0) with (DFin false 0 0). unfold ddiv.
  destruct (Z.eqb_spec (b * 2 ^ (- Eb)) 0); [lia|]. reflexivity.
Qed.

Lemma row_zero ra rb :
  forallb (fun v => v =? 0) ra = true -> forallb in_u16_pos rb = true ->
  Forall (fun x => x = dzero) (quot_row (map double_of_Z ra) (map double_of_Z rb)).
Proof.
  revert rb. induction ra as [|x ra IH]; intros [|y rb] Ha Hb; cbn; try (constructor; fail).
  cbn in Ha, Hb. apply andb_true_iff in Ha as [Hx Ha], Hb as [Hy Hb].
  apply Z.eqb_eq in Hx. subst x. unfold in_u16_pos in Hy. rewrite andb_true_iff, !Z.leb_le in Hy.
  constructor; [apply zero_quotient; lia|]. apply IH; assumption.
Qed.

Lemma grid_zero a b :
  forallb (forallb (fun v => v =? 0)) a = true -> forallb (forallb in_u16_pos) b = true ->
  Forall (fun x => x = dzero) (concat (map (fun p => quot_row (fst p) (snd p))
                   (combine (map (map double_of_Z) a) (map (map double_of_Z) b)))).
Proof.
  revert b. induction a as [|ra a IH]; intros [|rb b] Ha Hb; cbn; try (constructor; fail).
  cbn in Ha, Hb. apply andb_true_iff in Ha as [Hr Ha], Hb as [Hs Hb].
  apply List.Forall_app. split; [apply row_zero; assumption|]. apply IH; assumption.
Qed.

Lemma grid_empty a b :
  forallb (fun r => Nat.eqb (length r) 0) a = true ->
  concat (map (fun p => quot_row (fst p) (snd p))
            (combine (map (map double_of_Z) a) (map (map double_of_Z) b))) = [].
Proof.
  revert b. induction a as [|ra a IH]; intros [|rb b] Ha; cbn; try reflexivity.
  cbn in Ha. apply andb_true_iff in Ha as [Hr Ha]. apply Nat.eqb_eq in Hr.
  destruct ra; [|discriminate]. cbn. apply IH; assumption.
Qed.

Lemma fold_np_maximum_zero l :
  Forall (fun x => x = dzero) l -> fold_left np_maximum l dzero = dzero.
Proof.
  induction l as [|x l IH]; intro H; [reflexivity|].
  inversion H as [|? ? Hx Hl]; subst. cbn [fold_left].
  change (np_maximum dzero dzero) with dzero. apply IH; assumption.
Qed.

(** C4 (corrected).  For two images whose [width] and [height] entries
    are [int]s: [self] is returned unchanged; different widths or heights
    raise [DimensionError].  With equal ones and [data] of [height] rows
    of [width] [uint16] pixels: an empty image ([height] or [width] 0)
    raises [ValueError] at [correctedData.max()]; with no zero pixel in
    [lCCD] and some non-zero pixel in [self], the result is
    [correctedData / correctedData.max()] for the element-wise quotient
    [correctedData], every entry is at most 1.0 and some entry equals
    1.0; with no zero pixel in [lCCD] and an all-zero non-empty [self],
    every entry of the result is [nan]. *)
Theorem normalizeOnCCD_spec (self lCCD : leem) (w1 w2 h1 h2 : Z) :
  metadata self !! "width" = Some (VInt w1) ->
  metadata lCCD !! "width" = Some (VInt w2) ->
  metadata self !! "height" = Some (VInt h1) ->
  metadata lCCD !! "height" = Some (VInt h2) ->
  snd (normalizeOnCCD self lCCD) = self /\
  ((w1 <> w2 \/ h1 <> h2) -> fst (normalizeOnCCD self lCCD) = Raise DimensionError) /\
  (forall a b,
     w1 = w2 -> h1 = h2 -> data self = ArrU16 a -> data lCCD = ArrU16 b ->
     length a = Z.to_nat h1 -> length b = Z.to_nat h2 ->
     forallb (fun r => Nat.eqb (length r) (Z.to_nat w1)) a = true ->
     forallb (fun r => Nat.eqb (length r) (Z.to_nat w2)) b = true ->
     ((Z.to_nat h1 = 0%nat \/ Z.to_nat w1 = 0%nat) ->
        fst (normalizeOnCCD self lCCD) = Raise ValueError) /\
     (forallb (forallb in_u16) a = true -> forallb (forallb in_u16_pos) b = true ->
      existsb (existsb (fun v => 0 <? v)) a = true ->
      exists q mx,
        zip_grid ddiv (as_f64 (data self)) (as_f64 (data lCCD)) = Ok q /\
        grid_max q = Ok mx /\
        fst (normalizeOnCCD self lCCD) = Ok (grid_map (fun x => ddiv x mx) q) /\
        Forall (Forall (fun x => dle x (double_of_Z 1) = true)) (grid_map (fun x => ddiv x mx) q) /\
        Exists (Exists (fun x => deqb x (double_of_Z 1) = true)) (grid_map (fun x => ddiv x mx) q)) /\
     (forallb (forallb (fun v => v =? 0)) a = true -> forallb (forallb in_u16_pos) b = true ->
      0 < h1 -> 0 < w1 ->
      exists g, fst (normalizeOnCCD self lCCD) = Ok g /\ g <> [] /\
        Forall (Forall (fun x => disnan x = true)) g)).
Proof.
  intros Hw1 Hw2 Hh1 Hh2.
  unfold normalizeOnCCD, md_get. rewrite Hw1, Hw2, Hh1, Hh2. cbn [res_bind py_eqb fst snd].
  split; [reflexivity|]. split.
  - intros Hne. destruct (Z.eqb_spec w1 w2), (Z.eqb_spec h1 h2); cbn; try reflexivity. tauto.
  - intros a b <- <- Ha Hb La Lb Wa Wb.
    rewrite !Z.eqb_refl. cbn [negb orb]. rewrite Ha, Hb. cbn [as_f64].
    assert (Hz : zip_grid ddiv (map (map double_of_Z) a) (map (map double_of_Z) b)
                 = Ok (map (fun p => quot_row (fst p) (snd p))
                          (combine (map (map double_of_Z) a) (map (map double_of_Z) b)))).
    { unfold zip_grid. rewrite !length_map, La, Lb, Nat.eqb_refl. cbn [andb].
      replace (forallb _ _) with true; [reflexivity|].
      symmetry. clear - Wa Wb. revert b Wb. induction a as [|ra a IH]; intros [|rb b] Wb; cbn in *; try reflexivity.
      apply andb_true_iff in Wa as [Wr Wa], Wb as [Ws Wb]. apply Nat.eqb_eq in Wr, Ws.
      rewrite !length_map, Wr, Ws, Nat.eqb_refl. cbn. apply IH; assumption. }
    rewrite Hz. cbn [res_bind].
    set (q := map (fun p => quot_row (fst p) (snd p))
                (combine (map (map double_of_Z) a) (map (map double_of_Z) b))) in *.
    split; [|split].
    + intros Hempty. unfold grid_max.
      replace (concat q) with (@nil double); [reflexivity|].
      destruct Hempty as [E|E].
      * rewrite E in La. destruct a; [reflexivity|discriminate].
      * symmetry. apply grid_empty. rewrite E in Wa. exact Wa.
    + intros Ba Bb Pa.
      destruct (grid_max_props q) as (mx & Hmx & Hp & Hin & Hle).
      * apply grid_fin; assumption.
      * apply (grid_pos a b (Z.to_nat w1)); [lia|assumption..].
      * rewrite Hmx. cbn [res_bind].
        exists q, mx. split; [reflexivity|]. split; [exact Hmx|]. split; [reflexivity|].
        apply normalized_bounds; [apply grid_fin; assumption|assumption..].
    + intros Za Bb Hh Hw.
      pose proof (grid_zero a b Za Bb) as Hzero. fold q in Hzero.
      assert (Hall : forall r v, In r q -> In v r -> v = dzero).
      { intros r v Hr Hv. rewrite List.Forall_forall in Hzero. apply Hzero, in_concat. eauto. }
      destruct a as [|ra a']; [cbn in La; lia|]. destruct b as [|rb b']; [cbn in Lb; lia|].
      cbn in Wa, Wb. apply andb_true_iff in Wa as [Wr _], Wb as [Ws _].
      apply Nat.eqb_eq in Wr, Ws.
      destruct ra as [|x ra]; [cbn in Wr; lia|]. destruct rb as [|y rb]; [cbn in Ws; lia|].
      unfold grid_max.
      destruct (concat q) as [|z rest] eqn:Ec; [cbn in Ec; discriminate|].
      inversion Hzero as [|? ? Hz0 Hrest]; subst z.
      rewrite fold_np_maximum_zero by exact Hrest. cbn [res_bind].
      exists (grid_map (fun x0 => ddiv x0 dzero) q). split; [reflexivity|]. split.
      * unfold grid_map. cbn. discriminate.
      * unfold grid_map. apply List.Forall_forall. intros r' Hr'. apply in_map_iff in Hr' as (r & <- & Hr).
        apply List.Forall_forall. intros u Hu. apply in_map_iff in Hu as (v & <- & Hv).
        rewrite (Hall r v Hr Hv). reflexivity.
Qed.

(** C4, counterexample.  An all-zero 1x1 image over a CCD frame of the
    same size: [0.0 / 1.0] is 0.0, the maximum is 0.0 and [0.0 / 0.0] is
    [nan], so the result has no entry 1.0. *)
Lemma normalizeOnCCD_dark_frame_nan :
  exists o c,
    load_file dark_file = Some (Ok o) /\ load_file ccd_file = Some (Ok c) /\
    metadata o !! "width" = Some (VInt 1) /\ metadata c !! "width" = Some (VInt 1) /\
    metadata o !! "height" = Some (VInt 1) /\ metadata c !! "height" = Some (VInt 1) /\
    normalizeOnCCD o c = (Ok [[DNaN]], o).
Proof.
  match eval vm_compute in (load_file dark_file) with Some (Ok ?v) => pose (o := v) end.
  match eval vm_compute in (load_file ccd_file) with Some (Ok ?v) => pose (c := v) end.
  exists o, c.
  do 6 (split; [vm_compute; reflexivity|]). vm_compute. reflexivity.
Qed.

(** The decoded 2x2 image [[3,4],[1,2]] over the CCD frame of
    [ccd22_file]. *)
Lemma normalizeOnCCD_spec_witness :
  exists o c g,
    load_file minimal_file = Some (Ok o) /\ load_file ccd22_file = Some (Ok c) /\
    normalizeOnCCD o c = (Ok g, o) /\
    Forall (Forall (fun x => dle x (double_of_Z 1) = true)) g /\
    Exists (Exists (fun x => deqb x (double_of_Z 1) = true)) g.
Proof.
  match eval vm_compute in (load_file minimal_file) with Some (Ok ?v) => pose (o := v) end.
  match eval vm_compute in (load_file ccd22_file) with Some (Ok ?v) => pose (c := v) end.
  match eval vm_compute in (data o) with ArrU16 ?v => pose (a := v) end.
  match eval vm_compute in (data c) with ArrU16 ?v => pose (b := v) end.
  destruct (normalizeOnCCD_spec o c 2 2 2 2) as (Hs & _ & H);
    [vm_compute; reflexivity..|].
  assert (Da : data o = ArrU16 a) by (vm_compute; reflexivity).
  assert (Db : data c = ArrU16 b) by (vm_compute; reflexivity).
  assert (La : length a = Z.to_nat 2) by (vm_compute; reflexivity).
  assert (Lb : length b = Z.to_nat 2) by (vm_compute; reflexivity).
  assert (Wa : forallb (fun r => Nat.eqb (length r) (Z.to_nat 2)) a = true) by (vm_compute; reflexivity).
  assert (Wb : forallb (fun r => Nat.eqb (length r) (Z.to_nat 2)) b = true) by (vm_compute; reflexivity).
  assert (Ba : forallb (forallb in_u16) a = true) by (vm_compute; reflexivity).
  assert (Bb : forallb (forallb in_u16_pos) b = true) by (vm_compute; reflexivity).
  assert (Pa : existsb (existsb (fun v => 0 <? v)) a = true) by (vm_compute; reflexivity).
  destruct (H a b eq_refl eq_refl Da Db La Lb Wa Wb) as (_ & Hpos & _).
  destruct (Hpos Ba Bb Pa) as (q & mx & _ & _ & Hf & Hle & Heq).
  exists o, c, (grid_map (fun x => ddiv x mx) q).
  split; [vm_compute; reflexivity|]. split; [vm_compute; reflexivity|].
  split; [|split; assumption].
  rewrite (surjective_pairing (normalizeOnCCD o c)), Hf, Hs. reflexivity.
Defined.
